(** * X4 Mod Manager: the mod discovery and reconciliation engine

    A shallow embedding of [src/main.py].  The program keeps no state of
    its own: every route reads the filesystem and the settings file afresh
    and some routes mutate them.  The embedding therefore passes a [world]
    (a filesystem plus the settings file) through every operation.

    - paths are lists of components, [pathlib]'s [/] is [p ++ [name]];
    - the filesystem is a finite map from canonical paths to nodes
      (directory, regular file, symbolic link);
    - [Path.exists], [Path.is_dir] follow symbolic links, [Path.is_symlink]
      does not: a dangling link "does not exist" but "is a symlink";
    - a raised exception is a value of the [result] type. *)

From Stdlib Require Import ZArith Ascii.
From stdpp Require Import ssreflect gmap strings list fin_maps pretty.

Set Warnings "-rewrite-rw,-deprecated".
Open Scope string_scope.
Open Scope list_scope.

(** ** Paths *)

Definition path := list string.

(** [p / name] *)
Definition join (p : path) (name : string) : path := p ++ [name].

(** [p.parent] *)
Definition Path_parent (p : path) : path := removelast p.

(** [p.name] *)
Definition Path_name (p : path) : string := List.last p "".

(** ** Manifest documents and file contents *)

(** An XML element as [xml.etree.ElementTree] exposes it to the program:
    only the attribute dictionary of the root is ever consulted. *)
Record Element := mkElement {
  tag : string;
  attrib : gmap string string
}.

(** [root.get(key, default)] *)
Definition Element_get (e : Element) (key dflt : string) : string :=
  default dflt (attrib e !! key).

(** What a regular file holds, seen through the parsers the program uses:
    a well-formed XML document with its root element, or bytes that are not
    well-formed XML. *)
Inductive content :=
  | Xml (root : Element)
  | Raw (text : string).

Inductive node :=
  | Dir
  | File (readable : bool) (data : content)
  | Symlink (target : path).

#[global] Instance node_inhabited : Inhabited node := populate Dir.

(** ** The filesystem *)

(** Keys are canonical paths (no component of a key is a symbolic link);
    the root [[]] is a directory that is not stored. *)
Abbreviation fs := (gmap path node).

(** Linux follows at most 40 symbolic links during one path resolution and
    fails with ELOOP beyond. *)
Definition SYMLOOP_MAX : nat := 40.

(** [walk fuel m cur rest] resolves the components [rest] starting in the
    canonical directory [cur], following every symbolic link it meets
    (link targets are absolute).  It returns the canonical path reached and
    the node found there; [None] stands for ENOENT, ENOTDIR or ELOOP. *)
Fixpoint walk (fuel : nat) (m : fs) (cur : path) (rest : list string)
  {struct fuel} : option (path * node) :=
  match fuel with
  | O => None
  | S fuel' =>
      (fix go (cur : path) (rest : list string) {struct rest}
         : option (path * node) :=
         match rest with
         | [] => Some (cur, Dir)
         | c :: rest' =>
             match m !! join cur c with
             | None => None
             | Some Dir => go (join cur c) rest'
             | Some (File r d) =>
                 match rest' with
                 | [] => Some (join cur c, File r d)
                 | _ :: _ => None
                 end
             | Some (Symlink t) => walk fuel' m [] (t ++ rest')
             end
         end) cur rest
  end.

(** [os.stat(p)]: follows links. *)
Definition stat (m : fs) (p : path) : option (path * node) :=
  walk (S SYMLOOP_MAX) m [] p.

(** The canonical location of the entry [p] itself: the parent is resolved,
    the last component is not followed. *)
Definition locate (m : fs) (p : path) : option path :=
  match p with
  | [] => Some []
  | _ :: _ =>
      match stat m (Path_parent p) with
      | Some (d, Dir) => Some (join d (Path_name p))
      | _ => None
      end
  end.

(** [os.lstat(p)]: does not follow a link in the last component. *)
Definition lstat (m : fs) (p : path) : option node :=
  match p with
  | [] => Some Dir
  | _ :: _ => k ← locate m p; m !! k
  end.

(** [Path.exists()] *)
Definition Path_exists (m : fs) (p : path) : bool :=
  bool_decide (is_Some (stat m p)).

(** [Path.is_dir()] *)
Definition Path_is_dir (m : fs) (p : path) : bool :=
  match stat m p with
  | Some (_, Dir) => true
  | _ => false
  end.

(** [Path.is_symlink()] *)
Definition Path_is_symlink (m : fs) (p : path) : bool :=
  match lstat m p with
  | Some (Symlink _) => true
  | _ => false
  end.


(** ** Strings as Python uses them *)

Module Str.

(** [c.lower()] on ASCII. *)
Definition lower_ascii (c : ascii) : ascii :=
  let n := nat_of_ascii c in
  if (65 <=? n)%nat && (n <=? 90)%nat then ascii_of_nat (n + 32) else c.

(** [s.lower()] *)
Fixpoint lower (s : string) : string :=
  match s with
  | EmptyString => EmptyString
  | String c s' => String (lower_ascii c) (lower s')
  end.

(** [needle in hay] *)
Fixpoint contains (needle hay : string) : bool :=
  String.prefix needle hay ||
  match hay with
  | EmptyString => false
  | String _ hay' => contains needle hay'
  end.

(** The characters [str.strip()] removes. *)
Definition is_space (c : ascii) : bool :=
  let n := nat_of_ascii c in
  ((9 <=? n)%nat && (n <=? 13)%nat) || (n =? 32)%nat.

Fixpoint lstrip (s : string) : string :=
  match s with
  | EmptyString => EmptyString
  | String c s' => if is_space c then lstrip s' else s
  end.

(** [s.strip()] *)
Definition strip (s : string) : string :=
  String.rev (lstrip (String.rev (lstrip s))).

(** Splitting at every character that satisfies [sep]; [acc] is the
    piece being read, reversed. *)
Fixpoint split_go (sep : ascii → bool) (acc : string) (s : string)
  : list string :=
  match s with
  | EmptyString => [String.rev acc]
  | String c s' =>
      if sep c then String.rev acc :: split_go sep EmptyString s'
      else split_go sep (String c acc) s'
  end.

Definition split (sep : ascii → bool) (s : string) : list string :=
  split_go sep EmptyString s.

(** [sep.join(l)] *)
Fixpoint join_with (sep : string) (l : list string) : string :=
  match l with
  | [] => EmptyString
  | [x] => x
  | x :: l' => x +:+ sep +:+ join_with sep l'
  end.

(** The double-quote character. *)
Definition dquote : string := String "034"%char EmptyString.

(** [s[:n]] *)
Fixpoint take (n : nat) (s : string) : string :=
  match n, s with
  | S n', String c s' => String c (take n' s')
  | _, _ => EmptyString
  end.

(** The line feed. *)
Definition nl : string := String "010"%char EmptyString.

End Str.

(** [Path(s)]: the components of [s].  Both separators are accepted, as on
    the platform the program targets; empty components are dropped. *)
Definition is_sep (c : ascii) : bool :=
  bool_decide (c = "/"%char) || bool_decide (c = "\"%char).

Definition Path (s : string) : path :=
  filter (λ c, c ≠ EmptyString) (Str.split is_sep s).

(** [str(p)] *)
Definition str_path (p : path) : string :=
  "/" +:+ Str.join_with "/" p.

(** ** Exceptions *)

(** The fields of an [OSError] that its message is built from. *)
Record OSError := mkOSError {
  errno : option Z;
  winerror : option Z;
  strerror : string;
  filename : option string;
  filename2 : option string
}.

(** [repr(s)] for a name without quotes, backslashes or control
    characters. *)
Definition repr (s : string) : string := "'" +:+ s +:+ "'".

(** [str(e)] for an [OSError], as CPython's [OSError.__str__] builds it. *)
Definition str_OSError (e : OSError) : string :=
  let head :=
    match winerror e, errno e with
    | Some w, _ => "[WinError " +:+ pretty w +:+ "] " +:+ strerror e
    | None, Some n => "[Errno " +:+ pretty n +:+ "] " +:+ strerror e
    | None, None => strerror e
    end in
  match filename e, filename2 e with
  | Some f, Some g => head +:+ ": " +:+ repr f +:+ " -> " +:+ repr g
  | Some f, None => head +:+ ": " +:+ repr f
  | None, _ => head
  end.

Definition ENOENT : Z := 2.
Definition EACCES : Z := 13.
Definition EEXIST : Z := 17.
Definition ENOTDIR : Z := 20.
Definition EISDIR : Z := 21.
Definition ENOSPC : Z := 28.
Definition ELOOP : Z := 40.

Definition FileNotFoundError (p : path) : OSError :=
  mkOSError (Some ENOENT) None "No such file or directory" (Some (str_path p)) None.
Definition FileExistsError (src dst : path) : OSError :=
  mkOSError (Some EEXIST) None "File exists" (Some (str_path src)) (Some (str_path dst)).
Definition NotADirectoryError (p : path) : OSError :=
  mkOSError (Some ENOTDIR) None "Not a directory" (Some (str_path p)) None.
Definition IsADirectoryError (p : path) : OSError :=
  mkOSError (Some EISDIR) None "Is a directory" (Some (str_path p)) None.
Definition PermissionError (p : path) : OSError :=
  mkOSError (Some EACCES) None "Permission denied" (Some (str_path p)) None.

Inductive exn :=
  | OSError_exn (e : OSError)
  | ParseError
  | JSONDecodeError
  | RuntimeError (msg : string)
  | HTTPException (status_code : Z) (detail : string).

(** [str(e)] *)
Definition str_exn (e : exn) : string :=
  match e with
  | OSError_exn e => str_OSError e
  | ParseError => "syntax error"
  | JSONDecodeError => "Expecting value"
  | RuntimeError msg => msg
  | HTTPException code detail => pretty code +:+ ": " +:+ detail
  end.

(** A computation that returns a value or raises. *)
Inductive result (A : Type) :=
  | Return (a : A)
  | Raise (e : exn).
Arguments Return {A} a.
Arguments Raise {A} e.

Definition bind {A B} (r : result A) (k : A → result B) : result B :=
  match r with
  | Return a => k a
  | Raise e => Raise e
  end.

Notation "x <<- r ;; k" := (bind r (λ x, k))
  (at level 100, r at next level, right associativity).


(** ** The settings file *)

(** The settings dictionary: string keys and values, in insertion order. *)
Definition config := list (string * string).

(** [config.get(key, default)] *)
Fixpoint config_get (c : config) (key dflt : string) : string :=
  match c with
  | [] => dflt
  | (k, v) :: c' => if decide (k = key) then v else config_get c' key dflt
  end.

(** [config[key] = value]: an existing key keeps its position. *)
Fixpoint config_set (c : config) (key value : string) : config :=
  match c with
  | [] => [(key, value)]
  | (k, v) :: c' =>
      if decide (k = key) then (k, value) :: c'
      else (k, v) :: config_set c' key value
  end.

Module Json.

Definition hex_digit (n : nat) : ascii :=
  if (n <? 10)%nat then ascii_of_nat (48 + n) else ascii_of_nat (87 + n).

(** One character of a JSON string literal. *)
Definition escape_ascii (c : ascii) : string :=
  let n := nat_of_ascii c in
  if (n =? 34)%nat then "\" +:+ Str.dquote
  else if (n =? 92)%nat then "\\"
  else if (n =? 10)%nat then "\n"
  else if (n =? 13)%nat then "\r"
  else if (n =? 9)%nat then "\t"
  else if (n =? 8)%nat then "\b"
  else if (n =? 12)%nat then "\f"
  else if (n <? 32)%nat then
    "\u00" +:+ String (hex_digit (n / 16)) (String (hex_digit (n mod 16)) EmptyString)
  else String c EmptyString.

Fixpoint escape (s : string) : string :=
  match s with
  | EmptyString => EmptyString
  | String c s' => escape_ascii c +:+ escape s'
  end.

Definition literal (s : string) : string :=
  Str.dquote +:+ escape s +:+ Str.dquote.

Definition member (kv : string * string) : string :=
  "  " +:+ literal kv.1 +:+ ": " +:+ literal kv.2.

(** [json.dumps(config, indent=2)] for a dictionary of ASCII strings. *)
Definition dumps (c : config) : string :=
  match c with
  | [] => "{}"
  | _ :: _ =>
      "{" +:+ Str.nl +:+
      Str.join_with ("," +:+ Str.nl) (member <$> c) +:+
      Str.nl +:+ "}"
  end.

End Json.

(** What the settings file holds: a complete JSON document, which
    [json.load] reads back as the dictionary it was written from, or the
    text an interrupted write left behind, which [json.load] rejects. *)
Inductive document :=
  | Complete (c : config)
  | Partial (text : string).

(** The text in the file. *)
Definition doc_text (d : document) : string :=
  match d with
  | Complete c => Json.dumps c
  | Partial text => text
  end.

(** ** The world *)

(** [config_file] is [CONFIG_FILE], which lives in the package directory,
    outside the trees the operations touch; [None] when it does not
    exist. *)
Record world := mkWorld {
  files : fs;
  config_file : option document
}.

Definition with_files (w : world) (m : fs) : world :=
  mkWorld m (config_file w).

Definition with_config_file (w : world) (d : option document) : world :=
  mkWorld (files w) d.

(** ** Records *)

(** The dictionary [parse_content_xml] returns. *)
Record manifest := mkManifest {
  m_id : string;
  m_name : string;
  m_author : string;
  m_version : string;
  m_description : string;
  m_date : string;
  m_enabled : bool
}.

Record ModInfo := mkModInfo {
  id : string;
  name : string;
  author : string;
  version : string;
  description : string;
  date : string;
  enabled : bool;
  folder_name : string;
  source_path : string;
  is_managed : bool;
  is_installed : bool;
  is_symlink : bool
}.

(** The dictionary a route returns on success. *)
Record reply := mkReply {
  status : string;
  message : string
}.

(** The dictionary [list_mods] returns. *)
Record listing := mkListing {
  managed : list ModInfo;
  external : list ModInfo;
  extensions_dir : string;
  mods_dir : string
}.

(** The dictionary [set_extensions_dir] returns. *)
Record settings_reply := mkSettingsReply {
  settings_status : string;
  settings_path : string
}.

(** ** System calls *)

(** Each mutating call takes the fault the operating system answers with,
    if any, for reasons the model does not hold (privileges, quotas, a full
    disk); [None] lets the call run on the modelled tree. *)

(** [os.symlink(src, dst, target_is_directory=True)] *)
Definition os_symlink (fault : option OSError) (src dst : path) (m : fs)
  : OSError + fs :=
  match fault with
  | Some e => inl e
  | None =>
      match locate m dst with
      | None => inl (FileNotFoundError dst)
      | Some k =>
          match lstat m dst with
          | Some _ => inl (FileExistsError src dst)
          | None => inr (<[k := Symlink src]> m)
          end
      end
  end.

(** [os.unlink(p)] *)
Definition os_unlink (fault : option OSError) (p : path) (m : fs)
  : OSError + fs :=
  match fault with
  | Some e => inl e
  | None =>
      match locate m p, lstat m p with
      | Some k, Some (File _ _ | Symlink _) => inr (delete k m)
      | Some k, Some Dir => inl (IsADirectoryError p)
      | _, _ => inl (FileNotFoundError p)
      end
  end.

(** [shutil.rmtree(p)]: refuses a symbolic link, otherwise removes the
    directory and everything below it without following links.  A fault
    is taken before anything is removed. *)
Definition shutil_rmtree (fault : option OSError) (p : path) (m : fs)
  : OSError + fs :=
  match fault with
  | Some e => inl e
  | None =>
      match locate m p, lstat m p with
      | Some k, Some Dir =>
          inr (filter (λ kv : path * node, ¬ k `prefix_of` kv.1) m)
      | Some k, Some (Symlink _) =>
          inl (mkOSError None None "Cannot call rmtree on a symbolic link" None None)
      | Some k, Some (File _ _) => inl (NotADirectoryError p)
      | _, _ => inl (FileNotFoundError p)
      end
  end.

(** The names in the directory stored at the canonical path [d]. *)
Definition child_name (d : path) (k : path) : option string :=
  match k with
  | [] => None
  | _ :: _ => if decide (Path_parent k = d) then Some (Path_name k) else None
  end.

Definition scandir (m : fs) (d : path) : list string :=
  omap (child_name d) (map_to_list m).*1.

(** [list(p.iterdir())] *)
Definition Path_iterdir (m : fs) (p : path) : result (list path) :=
  match stat m p with
  | Some (d, Dir) => Return (join p <$> scandir m d)
  | Some _ => Raise (OSError_exn (NotADirectoryError p))
  | None => Raise (OSError_exn (FileNotFoundError p))
  end.

(** [p.resolve()] where [p] exists; a chain of links that does not end
    raises. *)
Definition Path_resolve (m : fs) (p : path) : result path :=
  match stat m p with
  | Some (d, _) => Return d
  | None => Raise (RuntimeError ("Symlink loop from " +:+ repr (str_path p)))
  end.

(** [ET.parse(p).getroot()] *)
Definition ET_parse (m : fs) (p : path) : result Element :=
  match stat m p with
  | None => Raise (OSError_exn (FileNotFoundError p))
  | Some (_, Dir) => Raise (OSError_exn (IsADirectoryError p))
  | Some (_, Symlink _) => Raise (OSError_exn (FileNotFoundError p))
  | Some (_, File false _) => Raise (OSError_exn (PermissionError p))
  | Some (_, File true (Raw _)) => Raise ParseError
  | Some (_, File true (Xml root)) => Return root
  end.

(** [open(CONFIG_FILE, "w")] truncates the file; [json.dump] then writes
    the text piece by piece.  A write can fail before the file is opened,
    or after [written] characters have reached the file. *)
Inductive write_fault :=
  | OpenFails (e : OSError)
  | WriteFails (written : nat) (e : OSError).

(** What the file holds once [written] characters of the document for
    [c] are in it. *)
Definition written_prefix (written : nat) (c : config) : document :=
  let text := Json.dumps c in
  if (written <? String.length text)%nat then Partial (Str.take written text)
  else Complete c.

(** ** The program *)

Definition DEFAULT_EXTENSIONS_DIR : path :=
  Path "C:\Program Files (x86)\Steam\steamapps\common\X4 Foundations\extensions".

Section Engine.

(** [MODS_DIR = BASE_DIR / "mods"], fixed by where the package is
    installed. *)
Variable MODS_DIR : path.

Definition load_config (w : world) : result config :=
  match config_file w with
  | Some (Complete c) => Return c
  | Some (Partial _) => Raise JSONDecodeError
  | None => Return [("extensions_dir", str_path DEFAULT_EXTENSIONS_DIR)]
  end.

Definition save_config (fault : option write_fault) (config : config)
  (w : world) : result unit * world :=
  match fault with
  | Some (OpenFails e) => (Raise (OSError_exn e), w)
  | Some (WriteFails written e) =>
      (Raise (OSError_exn e),
       with_config_file w (Some (written_prefix written config)))
  | None => (Return tt, with_config_file w (Some (Complete config)))
  end.

Definition get_extensions_dir (w : world) : result path :=
  config <<- load_config w ;;
  Return (Path (config_get config "extensions_dir"
                  (str_path DEFAULT_EXTENSIONS_DIR))).

Definition parse_content_xml (m : fs) (content_xml_path : path)
  : option manifest :=
  match ET_parse m content_xml_path with
  | Return root =>
      Some {| m_id := Element_get root "id" "unknown";
              m_name := Element_get root "name" "Unknown Mod";
              m_author := Element_get root "author" "Unknown";
              m_version := Element_get root "version" "0";
              m_description := Element_get root "description" "";
              m_date := Element_get root "date" "";
              m_enabled :=
                bool_decide (Element_get root "enabled" "1" = "1") |}
  | Raise e => None
  end.

(** The body of the loop of [get_available_mods]. *)
Definition available_mod (m : fs) (extensions_dir folder : path)
  : option ModInfo :=
  if Path_is_dir m folder then
    let content_xml := join folder "content.xml" in
    if Path_exists m content_xml then
      match parse_content_xml m content_xml with
      | Some info =>
          let ext_path := join extensions_dir (Path_name folder) in
          let is_installed := Path_exists m ext_path in
          let is_symlink :=
            if is_installed then Path_is_symlink m ext_path else false in
          Some {| id := m_id info;
                  name := m_name info;
                  author := m_author info;
                  version := m_version info;
                  description := m_description info;
                  date := m_date info;
                  enabled := m_enabled info;
                  folder_name := Path_name folder;
                  source_path := str_path folder;
                  is_managed := true;
                  is_installed := is_installed;
                  is_symlink := is_symlink |}
      | None => None
      end
    else None
  else None.

Definition get_available_mods (w : world) : result (list ModInfo) :=
  if negb (Path_exists (files w) MODS_DIR) then Return []
  else
    extensions_dir <<- get_extensions_dir w ;;
    folders <<- Path_iterdir (files w) MODS_DIR ;;
    Return (omap (available_mod (files w) extensions_dir) folders).

(** [{f.name for f in MODS_DIR.iterdir() if f.is_dir()}] *)
Definition managed_folder_names (m : fs) : result (gset string) :=
  if Path_exists m MODS_DIR then
    folders <<- Path_iterdir m MODS_DIR ;;
    Return (list_to_set (Path_name <$> filter (λ f, Path_is_dir m f = true) folders))
  else Return ∅.

(** The body of the loop of [get_installed_mods]. *)
Definition installed_mod (m : fs) (managed_folders : gset string)
  (folder : path) : option ModInfo :=
  if Path_is_dir m folder then
    let content_xml := join folder "content.xml" in
    let is_symlink := Path_is_symlink m folder in
    if is_symlink &&
       match Path_resolve m folder with
       | Return target => bool_decide (Path_parent target = MODS_DIR)
       | Raise _ => false
       end
    then None
    else if bool_decide (Path_name folder ∈ managed_folders) then None
    else if Path_exists m content_xml then
      match parse_content_xml m content_xml with
      | Some info =>
          Some {| id := m_id info;
                  name := m_name info;
                  author := m_author info;
                  version := m_version info;
                  description := m_description info;
                  date := m_date info;
                  enabled := m_enabled info;
                  folder_name := Path_name folder;
                  source_path := str_path folder;
                  is_managed := false;
                  is_installed := true;
                  is_symlink := is_symlink |}
      | None => None
      end
    else None
  else None.

Definition get_installed_mods (w : world) : result (list ModInfo) :=
  extensions_dir <<- get_extensions_dir w ;;
  if negb (Path_exists (files w) extensions_dir) then Return []
  else
    managed_folders <<- managed_folder_names (files w) ;;
    folders <<- Path_iterdir (files w) extensions_dir ;;
    Return (omap (installed_mod (files w) managed_folders) folders).

Definition list_mods (w : world) : result listing :=
  available <<- get_available_mods w ;;
  installed <<- get_installed_mods w ;;
  extensions_dir <<- get_extensions_dir w ;;
  Return {| managed := available;
            external := installed;
            extensions_dir := str_path extensions_dir;
            mods_dir := str_path MODS_DIR |}.

(** *** The mutating routes

    A route returns its dictionary or raises; an [HTTPException] becomes
    the response with that status code, any other exception an internal
    server error.  The world after the call is returned alongside. *)

Definition install_mod (fault : option OSError) (w : world)
  (folder_name : string) : result reply * world :=
  let mod_path := join MODS_DIR folder_name in
  if negb (Path_exists (files w) mod_path) then
    (Raise (HTTPException 404
              ("Mod folder '" +:+ folder_name +:+ "' not found")), w)
  else
    match get_extensions_dir w with
    | Raise e => (Raise e, w)
    | Return extensions_dir =>
        if negb (Path_exists (files w) extensions_dir) then
          (Raise (HTTPException 400
                    ("Extensions directory does not exist: "
                     +:+ str_path extensions_dir)), w)
        else
          let ext_path := join extensions_dir folder_name in
          if Path_exists (files w) ext_path then
            if Path_is_symlink (files w) ext_path then
              (Return {| status := "already_installed";
                         message := "Mod is already installed" |}, w)
            else
              (Raise (HTTPException 400
                        "A non-symlink folder with this name already exists in extensions"), w)
          else
            match os_symlink fault mod_path ext_path (files w) with
            | inr m' =>
                (Return {| status := "success";
                           message := "Installed " +:+ folder_name |},
                 with_files w m')
            | inl e =>
                if Str.contains "privilege" (Str.lower (str_OSError e))
                   || Str.contains "1314" (str_OSError e)
                then
                  (Raise (HTTPException 403
                            "Administrator privileges required to create symlinks on Windows. Run as admin or enable Developer Mode."), w)
                else
                  (Raise (HTTPException 500
                            ("Failed to create symlink: " +:+ str_OSError e)), w)
            end
    end.

Definition uninstall_mod (fault : option OSError) (w : world)
  (folder_name : string) : result reply * world :=
  match get_extensions_dir w with
  | Raise e => (Raise e, w)
  | Return extensions_dir =>
      let ext_path := join extensions_dir folder_name in
      if negb (Path_exists (files w) ext_path) then
        (Return {| status := "not_installed";
                   message := "Mod is not installed" |}, w)
      else if negb (Path_is_symlink (files w) ext_path) then
        (Raise (HTTPException 400
                  "Cannot uninstall: this is not a managed symlink. Remove manually if needed."), w)
      else
        match os_unlink fault ext_path (files w) with
        | inr m' =>
            (Return {| status := "success";
                       message := "Uninstalled " +:+ folder_name |},
             with_files w m')
        | inl e =>
            (Raise (HTTPException 500
                      ("Failed to remove symlink: " +:+ str_OSError e)), w)
        end
  end.

Definition delete_mod (unlink_fault rmtree_fault : option OSError)
  (w : world) (folder_name : string) : result reply * world :=
  let mod_path := join MODS_DIR folder_name in
  if negb (Path_exists (files w) mod_path) then
    (Raise (HTTPException 404
              ("Mod folder '" +:+ folder_name +:+ "' not found")), w)
  else
    match get_extensions_dir w with
    | Raise e => (Raise e, w)
    | Return extensions_dir =>
        let ext_path := join extensions_dir folder_name in
        (* First uninstall if installed *)
        let unlinked :=
          if Path_exists (files w) ext_path
             && Path_is_symlink (files w) ext_path
          then os_unlink unlink_fault ext_path (files w)
          else inr (files w) in
        match unlinked with
        | inl e => (Raise (OSError_exn e), w)
        | inr m1 =>
            (* Then delete the mod folder *)
            match shutil_rmtree rmtree_fault mod_path m1 with
            | inr m2 =>
                (Return {| status := "success";
                           message := "Deleted " +:+ folder_name |},
                 with_files w m2)
            | inl e =>
                (Raise (HTTPException 500
                          ("Failed to delete mod: " +:+ str_OSError e)),
                 with_files w m1)
            end
        end
    end.

(** [data] is the JSON body of the request. *)
Definition set_extensions_dir (fault : option write_fault) (w : world)
  (data : config) : result settings_reply * world :=
  let new_path := Str.strip (config_get data "path" "") in
  if bool_decide (new_path = "") then
    (Raise (HTTPException 400 "Path cannot be empty"), w)
  else
    let path := Path new_path in
    if negb (Path_exists (files w) path) then
      (Raise (HTTPException 400
                ("Directory does not exist: " +:+ new_path)), w)
    else
      match load_config w with
      | Raise e => (Raise e, w)
      | Return config =>
          let config := config_set config "extensions_dir" new_path in
          match save_config fault config w with
          | (Raise e, w') => (Raise e, w')
          | (Return _, w') =>
              (Return {| settings_status := "success";
                         settings_path := new_path |}, w')
          end
      end.

End Engine.

(** ** The error taxonomy of the specification *)

Definition NotFound (folder_name : string) : exn :=
  HTTPException 404 ("Mod folder '" +:+ folder_name +:+ "' not found").
Definition InvalidConfig (extensions_dir : path) : exn :=
  HTTPException 400
    ("Extensions directory does not exist: " +:+ str_path extensions_dir).
Definition Conflict : exn :=
  HTTPException 400
    "A non-symlink folder with this name already exists in extensions".
Definition Refused : exn :=
  HTTPException 400
    "Cannot uninstall: this is not a managed symlink. Remove manually if needed.".
Definition PermissionDenied : exn :=
  HTTPException 403
    "Administrator privileges required to create symlinks on Windows. Run as admin or enable Developer Mode.".
Definition IOError (detail : string) : exn := HTTPException 500 detail.

Definition not_installed : reply :=
  {| status := "not_installed"; message := "Mod is not installed" |}.
Definition success (message : string) : reply :=
  {| status := "success"; message := message |}.

(** A directory reached without crossing a symbolic link: every component
    below [cur] is a stored directory. *)
Fixpoint is_real_from (m : fs) (cur : path) (a : list string) : bool :=
  match a with
  | [] => true
  | c :: a' =>
      match m !! join cur c with
      | Some Dir => is_real_from m (join cur c) a'
      | _ => false
      end
  end.

Definition is_real_dir (m : fs) (p : path) : bool := is_real_from m [] p.

Definition is_link (n : node) : bool :=
  match n with
  | Symlink _ => true
  | _ => false
  end.

(** Python's [PermissionError] (EPERM, EACCES) and the Windows error
    1314, "a required privilege is not held by the client". *)
Definition EPERM : Z := 1.
Definition ERROR_PRIVILEGE_NOT_HELD : Z := 1314.

Definition is_permission_denial (e : OSError) : bool :=
  bool_decide (errno e = Some EPERM) || bool_decide (errno e = Some EACCES)
  || bool_decide (winerror e = Some ERROR_PRIVILEGE_NOT_HELD).

(** The sub-directories the scan of the managed root meets, those without
    a manifest file and those whose manifest does not parse. *)
Definition subfolders (m : fs) (root : path) : list path :=
  match Path_iterdir m root with
  | Return l => filter (λ f, Path_is_dir m f = true) l
  | Raise _ => []
  end.

Definition lacks_manifest (m : fs) (folder : path) : bool :=
  negb (Path_exists m (join folder "content.xml")).

Definition unparsable_manifest (m : fs) (folder : path) : bool :=
  Path_exists m (join folder "content.xml")
  && bool_decide (parse_content_xml m (join folder "content.xml") = None).

Definition count_where (P : path → bool) (l : list path) : nat :=
  length (filter (λ f, P f = true) l).

(** How often a folder name is reported in a list of records. *)
Definition occurrences (X : string) (l : list ModInfo) : nat :=
  length (filter (λ r, folder_name r = X) l).

(** ** A small installation *)

Module Demo.

Definition M : path := ["app"; "mods"].
Definition E : path := ["game"; "extensions"].

Definition cfg : config := [("extensions_dir", "/game/extensions")].

Definition manifest_A : Element :=
  mkElement "content"
    (<["id" := "mod_a"]> (<["name" := "Mod A"]> (<["enabled" := "0"]> ∅))).

Definition manifest_bare : Element := mkElement "content" ∅.

(** Managed: [A] and [D] with a manifest, [B] without one, [C] with a
    manifest that is not XML, the plain file [readme] and [mod1314].
    Extensions: the real folders [B] and [F], and the links [D] and
    [mod1314] whose target is gone. *)
Definition tree : fs :=
  list_to_map
    [ (["app"], Dir);
      (M, Dir);
      (M ++ ["A"], Dir);
      (M ++ ["A"; "content.xml"], File true (Xml manifest_A));
      (M ++ ["B"], Dir);
      (M ++ ["C"], Dir);
      (M ++ ["C"; "content.xml"], File true (Raw "<content"));
      (M ++ ["D"], Dir);
      (M ++ ["D"; "content.xml"], File true (Xml manifest_bare));
      (M ++ ["mod1314"], Dir);
      (M ++ ["readme"], File true (Raw "notes"));
      (["game"], Dir);
      (E, Dir);
      (E ++ ["B"], Dir);
      (E ++ ["B"; "content.xml"], File true (Xml manifest_bare));
      (E ++ ["F"], Dir);
      (E ++ ["F"; "content.xml"], File true (Xml manifest_bare));
      (E ++ ["D"], Symlink ["old"; "D"]);
      (E ++ ["mod1314"], Symlink ["old"; "mod1314"]) ].

Definition w0 : world := mkWorld tree (Some (Complete cfg)).

(** [w0] once [A] is installed. *)
Definition w1 : world :=
  with_files w0 (<[E ++ ["A"] := Symlink (M ++ ["A"])]> tree).

(** The extensions directory does not exist. *)
Definition w_unset : world :=
  mkWorld tree (Some (Complete [("extensions_dir", "/nowhere")])).

Definition denied : OSError :=
  mkOSError (Some EACCES) None "Permission denied"
    (Some (str_path (M ++ ["A"]))) (Some (str_path (E ++ ["A"]))).

Definition not_held : OSError :=
  mkOSError (Some 22%Z) (Some ERROR_PRIVILEGE_NOT_HELD)
    "A required privilege is not held by the client"
    (Some (str_path (M ++ ["A"]))) (Some (str_path (E ++ ["A"]))).

Definition disk_full : OSError :=
  mkOSError (Some ENOSPC) None "No space left on device" None None.

(** What [list_mods] reports once [A] is installed. *)
Definition record_A : ModInfo :=
  {| id := "mod_a"; name := "Mod A"; author := "Unknown"; version := "0";
     description := ""; date := ""; enabled := false;
     folder_name := "A"; source_path := "/app/mods/A";
     is_managed := true; is_installed := true; is_symlink := true |}.

(** The same before [A] is installed. *)
Definition record_A0 : ModInfo :=
  {| id := "mod_a"; name := "Mod A"; author := "Unknown"; version := "0";
     description := ""; date := ""; enabled := false;
     folder_name := "A"; source_path := "/app/mods/A";
     is_managed := true; is_installed := false; is_symlink := false |}.

Definition record_D : ModInfo :=
  {| id := "unknown"; name := "Unknown Mod"; author := "Unknown";
     version := "0"; description := ""; date := ""; enabled := true;
     folder_name := "D"; source_path := "/app/mods/D";
     is_managed := true; is_installed := false; is_symlink := false |}.

Definition record_F : ModInfo :=
  {| id := "unknown"; name := "Unknown Mod"; author := "Unknown";
     version := "0"; description := ""; date := ""; enabled := true;
     folder_name := "F"; source_path := "/game/extensions/F";
     is_managed := false; is_installed := true; is_symlink := false |}.

End Demo.

(** ** The symlink probe *)

(** [p.mkdir(exist_ok=True)]: an existing directory is accepted, anything
    else in the way is an error; the parent is not created. *)
Definition Path_mkdir_exist_ok (fault : option OSError) (p : path) (m : fs)
  : OSError + fs :=
  match fault with
  | Some e => inl e
  | None =>
      match locate m p with
      | None => inl (FileNotFoundError p)
      | Some k =>
          match lstat m p with
          | None => inr (<[k := Dir]> m)
          | Some _ =>
              if Path_is_dir m p then inr m
              else inl (mkOSError (Some EEXIST) None "File exists"
                          (Some (str_path p)) None)
          end
      end
  end.

Definition ENOTEMPTY : Z := 39.

(** [p.rmdir()]: removes an empty directory. *)
Definition Path_rmdir (fault : option OSError) (p : path) (m : fs)
  : OSError + fs :=
  match fault with
  | Some e => inl e
  | None =>
      match locate m p, lstat m p with
      | Some k, Some Dir =>
          match scandir m k with
          | [] => inr (delete k m)
          | _ :: _ =>
              inl (mkOSError (Some ENOTEMPTY) None "Directory not empty"
                     (Some (str_path p)) None)
          end
      | Some k, Some (File _ _ | Symlink _) => inl (NotADirectoryError p)
      | _, _ => inl (FileNotFoundError p)
      end
  end.

(** The faults of the six system calls of [check_symlink_capability], in
    the order of the source. *)
Record probe_faults := mkProbeFaults {
  probe_mkdir : option OSError;
  probe_stale_unlink : option OSError;
  probe_symlink : option OSError;
  probe_unlink : option OSError;
  probe_rmdir : option OSError;
  probe_cleanup : option OSError
}.

Definition no_faults : probe_faults :=
  mkProbeFaults None None None None None None.

(** [tmp] is [tempfile.gettempdir()] and [pid] is [os.getpid()].  The
    [try] body gives the tree it ends with, or the error it stopped on and
    the tree reached by then. *)
Definition check_symlink_capability (tmp : path) (pid : Z)
  (faults : probe_faults) (m : fs) : result bool * fs :=
  let test_dir := tmp in
  let test_link := join test_dir ("_symlink_test_" +:+ pretty pid) in
  let test_target := join test_dir ("_symlink_target_" +:+ pretty pid) in
  let body : OSError * fs + fs :=
    match Path_mkdir_exist_ok (probe_mkdir faults) test_target m with
    | inl e => inl (e, m)
    | inr m1 =>
        match (if Path_exists m1 test_link
               then os_unlink (probe_stale_unlink faults) test_link m1
               else inr m1) with
        | inl e => inl (e, m1)
        | inr m2 =>
            match os_symlink (probe_symlink faults) test_target test_link m2 with
            | inl e => inl (e, m2)
            | inr m3 =>
                match os_unlink (probe_unlink faults) test_link m3 with
                | inl e => inl (e, m3)
                | inr m4 =>
                    match Path_rmdir (probe_rmdir faults) test_target m4 with
                    | inl e => inl (e, m4)
                    | inr m5 => inr m5
                    end
                end
            end
        end
    end in
  match body with
  | inr m5 => (Return true, m5)
  | inl (_, m') =>
      if Path_exists m' test_target then
        match Path_rmdir (probe_cleanup faults) test_target m' with
        | inr m'' => (Return false, m'')
        | inl e => (Raise (OSError_exn e), m')
        end
      else (Return false, m')
  end.


(** * Properties *)

(** ** Path resolution *)

Example Path_splits_at_separators :
  DEFAULT_EXTENSIONS_DIR =
  ["C:"; "Program Files (x86)"; "Steam"; "steamapps"; "common";
   "X4 Foundations"; "extensions"].
Proof. vm_compute. reflexivity. Qed.

Lemma walk_nil f m cur : walk (S f) m cur [] = Some (cur, Dir).
Proof. reflexivity. Qed.

Lemma walk_cons f m cur c rest :
  walk (S f) m cur (c :: rest) =
  match m !! join cur c with
  | None => None
  | Some Dir => walk (S f) m (join cur c) rest
  | Some (File r d) =>
      match rest with
      | [] => Some (join cur c, File r d)
      | _ :: _ => None
      end
  | Some (Symlink t) => walk f m [] (t ++ rest)
  end.
Proof. reflexivity. Qed.

Arguments walk : simpl never.

Lemma Path_parent_join p c : Path_parent (join p c) = p.
Proof. apply removelast_last. Qed.

Lemma Path_name_join p c : Path_name (join p c) = c.
Proof. apply last_last. Qed.

Lemma join_nonempty p c : join p c ≠ [].
Proof. unfold join. by destruct p. Qed.

(** The node a resolution ends on is never a link. *)
Lemma walk_not_link f m cur rest d n :
  walk f m cur rest = Some (d, n) → is_link n = false.
Proof.
  revert cur rest. induction f as [|f IHf]; intros cur rest; [done|].
  revert cur. induction rest as [|c rest IHrest]; intros cur.
  - rewrite walk_nil. by intros [= _ <-].
  - rewrite walk_cons. destruct (m !! join cur c) as [[|r x|t]|]; try done.
    + apply IHrest.
    + destruct rest; [|done]. by intros [= _ <-].
    + apply IHf.
Qed.

(** A resolution that fails does not recover on a longer path. *)
Lemma walk_app_None f m cur a b :
  walk f m cur a = None → walk f m cur (a ++ b) = None.
Proof.
  revert cur a. induction f as [|f IHf]; intros cur a; [done|].
  revert cur. induction a as [|c a IHa]; intros cur.
  - by rewrite walk_nil.
  - rewrite -app_comm_cons !walk_cons.
    destruct (m !! join cur c) as [[|r x|t]|]; try done.
    + apply IHa.
    + by destruct a.
    + rewrite app_assoc. apply IHf.
Qed.

Lemma walk_app_File f m cur a b d r x :
  walk f m cur a = Some (d, File r x) → b ≠ [] →
  walk f m cur (a ++ b) = None.
Proof.
  intros H Hb. revert cur a H. induction f as [|f IHf]; intros cur a; [done|].
  revert cur. induction a as [|c a IHa]; intros cur.
  - by rewrite walk_nil.
  - rewrite -app_comm_cons !walk_cons.
    destruct (m !! join cur c) as [[|r' x'|t]|]; try done.
    + apply IHa.
    + destruct a; [|done]. intros _. by destruct b.
    + rewrite app_assoc. apply IHf.
Qed.

(** Below a directory the resolution goes on from its canonical path, with
    the link budget that is left. *)
Lemma walk_app_Dir f m cur a d :
  walk f m cur a = Some (d, Dir) →
  ∃ f', (S f' ≤ f)%nat ∧ ∀ b, walk f m cur (a ++ b) = walk (S f') m d b.
Proof.
  revert cur a. induction f as [|f IHf]; intros cur a; [done|].
  revert cur. induction a as [|c a IHa]; intros cur.
  - rewrite walk_nil. intros [= <-]. exists f. split; [lia|done].
  - rewrite walk_cons.
    destruct (m !! join cur c) as [[|r x|t]|] eqn:E; try done.
    + intros H. destruct (IHa _ H) as (f' & Hf' & Hb).
      exists f'. split; [done|]. intros b.
      by rewrite -app_comm_cons walk_cons E Hb.
    + by destruct a.
    + intros H. destruct (IHf _ _ H) as (f' & Hf' & Hb).
      exists f'. split; [lia|]. intros b.
      by rewrite -app_comm_cons walk_cons E app_assoc Hb.
Qed.

Lemma walk_real f m cur a b :
  is_real_from m cur a = true →
  walk (S f) m cur (a ++ b) = walk (S f) m (cur ++ a) b.
Proof.
  revert cur. induction a as [|c a IHa]; intros cur; simpl.
  - by rewrite app_nil_r.
  - destruct (m !! join cur c) as [[|r x|t]|] eqn:E; try done.
    intros H. rewrite walk_cons E (IHa _ H). unfold join.
    by rewrite -app_assoc.
Qed.

Lemma is_real_from_insert m cur a k n :
  m !! k = None →
  is_real_from m cur a = true → is_real_from (<[k := n]> m) cur a = true.
Proof.
  intros Hk. revert cur. induction a as [|c a IHa]; intros cur; simpl; [done|].
  destruct (m !! join cur c) as [x|] eqn:E; [|done].
  assert (k ≠ join cur c) as Hne by congruence.
  rewrite lookup_insert_ne // E. destruct x; try done. apply IHa.
Qed.

Lemma walk_real_dir f m p :
  is_real_dir m p = true → walk (S f) m [] p = Some (p, Dir).
Proof.
  intros H. pose proof (walk_real f m [] p [] H) as Hw.
  by rewrite app_nil_r walk_nil in Hw.
Qed.

Lemma stat_real m p : is_real_dir m p = true → stat m p = Some (p, Dir).
Proof. apply walk_real_dir. Qed.

Lemma stat_real_join m p c :
  is_real_dir m p = true →
  stat m (join p c) = walk (S SYMLOOP_MAX) m p [c].
Proof. intros H. unfold stat, join. by rewrite (walk_real _ _ _ _ _ H). Qed.

Lemma locate_join m p c :
  locate m (join p c) =
  match stat m p with
  | Some (d, Dir) => Some (join d c)
  | _ => None
  end.
Proof.
  unfold locate. destruct (join p c) eqn:E; [by apply join_nonempty in E|].
  by rewrite -E Path_parent_join Path_name_join.
Qed.

Lemma lstat_join m p c :
  lstat m (join p c) =
  match stat m p with
  | Some (d, Dir) => m !! join d c
  | _ => None
  end.
Proof.
  unfold lstat. destruct (join p c) eqn:E; [by apply join_nonempty in E|].
  rewrite -E locate_join. by destruct (stat m p) as [[d [|r x|t]]|].
Qed.

(** An entry that is absent does not exist. *)
Lemma stat_join_absent m p c :
  lstat m (join p c) = None → stat m (join p c) = None.
Proof.
  rewrite lstat_join. unfold stat, join.
  destruct (walk _ m [] p) as [[d [|r x|t]]|] eqn:E.
  - intros H. destruct (walk_app_Dir _ _ _ _ _ E) as (f' & _ & ->).
    by rewrite walk_cons H.
  - intros _. by apply (walk_app_File _ _ _ _ _ _ _ _ E).
  - by apply walk_not_link in E.
  - intros _. by apply walk_app_None.
Qed.

(** An entry that is not a link is what its path resolves to. *)
Lemma stat_join_entry m p c n :
  lstat m (join p c) = Some n → is_link n = false →
  ∃ k, locate m (join p c) = Some k ∧ stat m (join p c) = Some (k, n).
Proof.
  rewrite lstat_join locate_join. unfold stat, join.
  destruct (walk _ m [] p) as [[d [|r x|t]]|] eqn:E; try done.
  intros H Hn. exists (d ++ [c]). split; [done|].
  destruct (walk_app_Dir _ _ _ _ _ E) as (f' & _ & ->).
  rewrite walk_cons. unfold join. rewrite H. by destruct n.
Qed.

Lemma Path_exists_true m p : Path_exists m p = true ↔ is_Some (stat m p).
Proof. unfold Path_exists. apply bool_decide_eq_true. Qed.

Lemma Path_exists_false m p : Path_exists m p = false ↔ stat m p = None.
Proof.
  unfold Path_exists. rewrite bool_decide_eq_false -eq_None_not_Some. done.
Qed.

Lemma Path_is_dir_exists m p : Path_is_dir m p = true → Path_exists m p = true.
Proof.
  unfold Path_is_dir. rewrite Path_exists_true.
  by destruct (stat m p) as [[d [|r x|t]]|].
Qed.

Lemma Path_exists_join_lstat m p c :
  Path_exists m (join p c) = true → is_Some (lstat m (join p c)).
Proof.
  rewrite Path_exists_true. intros H.
  destruct (lstat m (join p c)) eqn:E; [done|].
  apply stat_join_absent in E. rewrite E in H. by destruct H.
Qed.

(** ** Directory listings *)

Lemma child_name_Some d k c : child_name d k = Some c ↔ k = join d c.
Proof.
  unfold child_name. split.
  - destruct k as [|x k]; [done|]. case_decide as Hd; [|done].
    intros [= <-]. rewrite -Hd. unfold join, Path_parent, Path_name.
    by apply app_removelast_last.
  - intros ->. destruct (join d c) eqn:E; [by apply join_nonempty in E|].
    by rewrite -E Path_parent_join Path_name_join decide_True.
Qed.

Lemma elem_of_scandir m d c : c ∈ scandir m d ↔ is_Some (m !! join d c).
Proof.
  unfold scandir. rewrite list_elem_of_omap. split.
  - intros (k & Hk & Hc). apply child_name_Some in Hc as ->.
    apply list_elem_of_fmap in Hk as ([k v] & -> & Hkv).
    apply elem_of_map_to_list in Hkv. by exists v.
  - intros [v Hv]. exists (join d c). split; [|by apply child_name_Some].
    apply list_elem_of_fmap. exists (join d c, v). split; [done|].
    by apply elem_of_map_to_list.
Qed.

Lemma NoDup_omap_inj {A B} (f : A → option B) (l : list A) :
  (∀ x y z, f x = Some z → f y = Some z → x = y) →
  NoDup l → NoDup (omap f l).
Proof.
  intros Hinj. induction 1 as [|x l Hx Hl IH]; simpl; [constructor|].
  destruct (f x) as [z|] eqn:E; [|done]. constructor; [|done].
  rewrite list_elem_of_omap. intros (y & Hy & Hfy).
  by rewrite (Hinj _ _ _ E Hfy) in Hx.
Qed.

Lemma NoDup_scandir m d : NoDup (scandir m d).
Proof.
  unfold scandir. apply NoDup_omap_inj; [|apply NoDup_fst_map_to_list].
  intros x y z Hx Hy. apply child_name_Some in Hx, Hy. congruence.
Qed.

(** ** Installing *)

Section Properties.

Variable MODS_DIR : path.

Lemma Path_is_dir_locate m p c :
  Path_is_dir m p = true → ∃ d, stat m p = Some (d, Dir) ∧
                                locate m (join p c) = Some (join d c).
Proof.
  unfold Path_is_dir. rewrite locate_join.
  destruct (stat m p) as [[d [|r x|t]]|]; try done. by exists d.
Qed.

(** The link is created when the managed entry resolves, the extensions
    directory is a directory, nothing is stored under the name and the
    operating system does not object. *)
Lemma install_mod_creates w X ext :
  Path_exists (files w) (join MODS_DIR X) = true →
  get_extensions_dir w = Return ext →
  Path_is_dir (files w) ext = true →
  lstat (files w) (join ext X) = None →
  ∃ k, locate (files w) (join ext X) = Some k ∧
       files w !! k = None ∧
       install_mod MODS_DIR None w X =
       (Return (success ("Installed " +:+ X)),
        with_files w (<[k := Symlink (join MODS_DIR X)]> (files w))).
Proof.
  intros Hmod Hext Hdir Habs.
  destruct (Path_is_dir_locate _ _ X Hdir) as (d & Hd & Hk).
  exists (join d X). split; [done|]. split.
  { move: Habs. by rewrite lstat_join Hd. }
  unfold install_mod. rewrite Hmod Hext /= (Path_is_dir_exists _ _ Hdir) /=.
  pose proof (stat_join_absent _ _ _ Habs) as Hne.
  apply Path_exists_false in Hne. rewrite Hne.
  unfold os_symlink. by rewrite Hk Habs.
Qed.


Lemma is_real_dir_exists m p :
  is_real_dir m p = true → Path_exists m p = true.
Proof. intros H. apply Path_exists_true. by rewrite (stat_real _ _ H). Qed.

Lemma is_real_dir_is_dir m p :
  is_real_dir m p = true → Path_is_dir m p = true.
Proof. intros H. unfold Path_is_dir. by rewrite (stat_real _ _ H). Qed.


(** C3: [install_mod] answers NotFound when the managed entry does not
    exist, whatever else holds; InvalidConfig when it exists and the
    extensions directory does not; Conflict when both exist and the entry
    of that name under the extensions directory is not a link.  A link is
    created only when none of the three holds: if the tree changed, the
    managed entry and the extensions directory exist, nothing was stored
    under the name, and the one change is the new link. *)
Theorem install_mod_preconditions fault w X :
  (Path_exists (files w) (join MODS_DIR X) = false →
   install_mod MODS_DIR fault w X = (Raise (NotFound X), w)) ∧
  (∀ ext,
      Path_exists (files w) (join MODS_DIR X) = true →
      get_extensions_dir w = Return ext →
      Path_exists (files w) ext = false →
      install_mod MODS_DIR fault w X = (Raise (InvalidConfig ext), w)) ∧
  (∀ ext n,
      Path_exists (files w) (join MODS_DIR X) = true →
      get_extensions_dir w = Return ext →
      Path_exists (files w) ext = true →
      lstat (files w) (join ext X) = Some n → is_link n = false →
      install_mod MODS_DIR fault w X = (Raise Conflict, w)) ∧
  (files (install_mod MODS_DIR fault w X).2 ≠ files w →
   Path_exists (files w) (join MODS_DIR X) = true ∧
   ∃ ext k,
     get_extensions_dir w = Return ext ∧
     Path_exists (files w) ext = true ∧
     lstat (files w) (join ext X) = None ∧
     locate (files w) (join ext X) = Some k ∧
     files (install_mod MODS_DIR fault w X).2 =
       <[k := Symlink (join MODS_DIR X)]> (files w)).
Proof.
  unfold install_mod. repeat split.
  - by intros ->.
  - intros ext -> -> ->. done.
  - intros ext n -> -> -> Hn Hlink. simpl.
    destruct (stat_join_entry _ _ _ _ Hn Hlink) as (k & _ & Hk).
    assert (Path_exists (files w) (join ext X) = true) as ->.
    { apply Path_exists_true. by rewrite Hk. }
    unfold Path_is_symlink. rewrite Hn. by destruct n.
  - by destruct (Path_exists (files w) (join MODS_DIR X)).
  - move: H. destruct (Path_exists (files w) (join MODS_DIR X)); [|done].
    simpl. destruct (get_extensions_dir w) as [ext|e]; [|done].
    destruct (Path_exists (files w) ext) eqn:Hext; [|done]. simpl.
    destruct (Path_exists (files w) (join ext X)) eqn:Hex.
    { by destruct (Path_is_symlink (files w) (join ext X)). }
    unfold os_symlink. destruct fault as [e|].
    { by destruct (_ || _). }
    destruct (locate (files w) (join ext X)) as [k|] eqn:Hk.
    2:{ by destruct (_ || _). }
    destruct (lstat (files w) (join ext X)) as [n|] eqn:Hn.
    { by destruct (_ || _). }
    intros _. by exists ext, k.
Qed.

(** ** Listings *)

Lemma available_mod_Some m ext folder r :
  available_mod m ext folder = Some r →
  Path_is_dir m folder = true ∧
  Path_exists m (join folder "content.xml") = true ∧
  is_Some (parse_content_xml m (join folder "content.xml")) ∧
  folder_name r = Path_name folder ∧
  is_managed r = true ∧
  is_installed r = Path_exists m (join ext (Path_name folder)).
Proof.
  unfold available_mod.
  destruct (Path_is_dir m folder); [|done].
  destruct (Path_exists m (join folder "content.xml")); [|done].
  destruct (parse_content_xml m (join folder "content.xml")); [|done].
  intros [= <-]. simpl. eauto 10.
Qed.

Lemma installed_mod_Some m managed_folders folder r :
  installed_mod MODS_DIR m managed_folders folder = Some r →
  Path_name folder ∉ managed_folders ∧
  folder_name r = Path_name folder ∧
  is_managed r = false.
Proof.
  unfold installed_mod.
  destruct (Path_is_dir m folder); [|done].
  destruct (_ && _); [done|].
  case_bool_decide; [done|].
  destruct (Path_exists m (join folder "content.xml")); [|done].
  destruct (parse_content_xml m (join folder "content.xml")); [|done].
  by intros [= <-].
Qed.

Lemma Path_iterdir_Return m p l :
  Path_iterdir m p = Return l →
  ∃ d, stat m p = Some (d, Dir) ∧ l = join p <$> scandir m d.
Proof.
  unfold Path_iterdir. destruct (stat m p) as [[d [|b x|t]]|]; try done.
  intros [= <-]. by exists d.
Qed.

Lemma get_available_mods_Return w l :
  get_available_mods MODS_DIR w = Return l →
  (Path_exists (files w) MODS_DIR = false ∧ l = []) ∨
  ∃ ext d,
    get_extensions_dir w = Return ext ∧
    stat (files w) MODS_DIR = Some (d, Dir) ∧
    l = omap (available_mod (files w) ext)
          (join MODS_DIR <$> scandir (files w) d).
Proof.
  unfold get_available_mods.
  destruct (Path_exists (files w) MODS_DIR); simpl.
  2:{ intros [= <-]. by left. }
  destruct (get_extensions_dir w) as [ext|e]; [|done]. simpl.
  destruct (Path_iterdir (files w) MODS_DIR) as [folders|e] eqn:E; [|done].
  intros [= <-]. apply Path_iterdir_Return in E as (d & Hd & ->).
  right. by exists ext, d.
Qed.

Lemma get_available_mods_eq w ext d :
  get_extensions_dir w = Return ext →
  stat (files w) MODS_DIR = Some (d, Dir) →
  get_available_mods MODS_DIR w =
  Return (omap (available_mod (files w) ext)
            (join MODS_DIR <$> scandir (files w) d)).
Proof.
  intros Hext Hd. unfold get_available_mods.
  assert (Path_exists (files w) MODS_DIR = true) as ->.
  { apply Path_exists_true. by rewrite Hd. }
  simpl. rewrite Hext /=. unfold Path_iterdir. by rewrite Hd.
Qed.

Lemma subfolders_eq m root d :
  stat m root = Some (d, Dir) →
  subfolders m root =
  filter (λ f, Path_is_dir m f = true) (join root <$> scandir m d).
Proof. intros Hd. unfold subfolders, Path_iterdir. by rewrite Hd. Qed.

Lemma Path_is_dir_stat m p :
  Path_is_dir m p = true → ∃ d, stat m p = Some (d, Dir).
Proof.
  unfold Path_is_dir. destruct (stat m p) as [[d [|r x|t]]|]; try done.
  by exists d.
Qed.

(** A scan reports a name at most once: the names of a directory are
    distinct and each record carries the name of its folder. *)
Lemma occurrences_scan_zero (f : path → option ModInfo) P names X :
  (∀ c r, c ∈ names → f (join P c) = Some r → folder_name r ≠ X) →
  occurrences X (omap f (join P <$> names)) = 0.
Proof.
  unfold occurrences. induction names as [|c names IH]; intros Hf; [done|].
  simpl. destruct (f (join P c)) as [r|] eqn:E.
  - rewrite filter_cons_False.
    + apply IH. intros c' r' Hc'. apply Hf. by right.
    + eapply Hf; [|done]. by left.
  - apply IH. intros c' r' Hc'. apply Hf. by right.
Qed.

Lemma occurrences_scan_one (f : path → option ModInfo) P names X r :
  NoDup names → X ∈ names →
  (∀ c r', f (join P c) = Some r' → folder_name r' = c) →
  f (join P X) = Some r →
  filter (λ r', folder_name r' = X) (omap f (join P <$> names)) = [r].
Proof.
  intros Hnd HX Hname HfX.
  induction Hnd as [|c names Hc Hnd IH]; [by apply elem_of_nil in HX|].
  simpl. apply elem_of_cons in HX as [<-|HX].
  - rewrite HfX filter_cons_True; [|by apply Hname]. f_equal.
    apply length_zero_iff_nil.
    apply (occurrences_scan_zero f P names X).
    intros c' r' Hc' Hr' Heq. apply Hname in Hr'. congruence.
  - destruct (f (join P c)) as [r'|] eqn:E; [|by apply IH].
    rewrite filter_cons_False; [by apply IH|].
    apply Hname in E. congruence.
Qed.

Lemma get_extensions_dir_not_HTTP w code detail :
  get_extensions_dir w ≠ Raise (HTTPException code detail).
Proof.
  unfold get_extensions_dir, load_config.
  by destruct (config_file w) as [[c|t]|].
Qed.

(** C10: the only thing [install_mod] asks of the managed entry is that
    its path resolves.  Whatever it is, a folder with or without a
    manifest or a plain file, the answer is never NotFound, and with the
    extensions directory in place, nothing stored under the name and no
    fault the link to it is created; yet when it holds no manifest
    [get_available_mods] does not list it. *)
Theorem install_mod_needs_no_manifest w X :
  Path_exists (files w) (join MODS_DIR X) = true →
  (∀ fault, (install_mod MODS_DIR fault w X).1 ≠ Raise (NotFound X)) ∧
  (∀ ext,
      get_extensions_dir w = Return ext →
      Path_is_dir (files w) ext = true →
      lstat (files w) (join ext X) = None →
      ∃ k, locate (files w) (join ext X) = Some k ∧
           install_mod MODS_DIR None w X =
           (Return (success ("Installed " +:+ X)),
            with_files w (<[k := Symlink (join MODS_DIR X)]> (files w)))) ∧
  (Path_exists (files w) (join (join MODS_DIR X) "content.xml") = false →
   ∀ l, get_available_mods MODS_DIR w = Return l → occurrences X l = 0).
Proof.
  intros Hmod. split; [|split].
  - intros fault. unfold install_mod. rewrite Hmod /=.
    destruct (get_extensions_dir w) as [ext|e] eqn:Hext.
    2:{ simpl. intros [= ->]. by apply get_extensions_dir_not_HTTP in Hext. }
    destruct (Path_exists (files w) ext); [|done]. simpl.
    destruct (Path_exists (files w) (join ext X)).
    { by destruct (Path_is_symlink (files w) (join ext X)). }
    destruct (os_symlink _ _ _ _); [|done]. by destruct (_ || _).
  - intros ext Hext Hdir Habs.
    destruct (install_mod_creates w X ext) as (k & Hk & _ & ->); eauto.
  - intros Hnone l Hl.
    apply get_available_mods_Return in Hl as [[_ ->]|(ext & d & _ & _ & ->)];
      [done|].
    apply occurrences_scan_zero. intros c r _ Hr Hname.
    apply available_mod_Some in Hr as (_ & Hxml & _ & Hn & _).
    rewrite Path_name_join in Hn. rewrite Hn in Hname. subst c. congruence.
Qed.

(** ** Uninstalling and deleting *)

Lemma Path_is_symlink_inv m p c :
  Path_is_symlink m (join p c) = true →
  ∃ k t, locate m (join p c) = Some k ∧ m !! k = Some (Symlink t) ∧
         lstat m (join p c) = Some (Symlink t).
Proof.
  unfold Path_is_symlink. rewrite lstat_join locate_join.
  destruct (stat m p) as [[d [|r x|t]]|]; try done.
  destruct (m !! join d c) as [[|r x|t]|] eqn:E; try done.
  intros _. by exists (join d c), t.
Qed.

Lemma is_real_from_delete m cur a k n :
  m !! k = Some n → is_link n = true →
  is_real_from m cur a = true → is_real_from (delete k m) cur a = true.
Proof.
  intros Hk Hn. revert cur. induction a as [|c a IHa]; intros cur; [done|].
  simpl. destruct (m !! join cur c) as [[|r x|t]|] eqn:E; try done.
  assert (k ≠ join cur c) as Hne. { intros ->. rewrite E in Hk. by simplify_eq. }
  rewrite lookup_delete_ne // E. apply IHa.
Qed.



(** C4, as the code has it: [uninstall_mod] answers not_installed and
    changes nothing when nothing is stored under the name; answers
    Refused and changes nothing when what is stored is not a link; and
    when it is a link whose target resolves it asks the operating system
    to remove that one entry: on success the tree is the old one without
    the link, every other path, the target included, being as before,
    and on a fault the answer is IOError and nothing changed. *)
Theorem uninstall_mod_cases w X ext :
  get_extensions_dir w = Return ext →
  (∀ fault, lstat (files w) (join ext X) = None →
      uninstall_mod fault w X = (Return not_installed, w)) ∧
  (∀ fault n, lstat (files w) (join ext X) = Some n → is_link n = false →
      uninstall_mod fault w X = (Raise Refused, w)) ∧
  (Path_exists (files w) (join ext X) = true →
   Path_is_symlink (files w) (join ext X) = true →
   ∃ k t,
     locate (files w) (join ext X) = Some k ∧
     files w !! k = Some (Symlink t) ∧
     uninstall_mod None w X =
       (Return (success ("Uninstalled " +:+ X)),
        with_files w (delete k (files w))) ∧
     (∀ q, q ≠ k → delete k (files w) !! q = files w !! q) ∧
     (∀ e, uninstall_mod (Some e) w X =
           (Raise (IOError ("Failed to remove symlink: " +:+ str_OSError e)),
            w))).
Proof.
  intros Hext. unfold uninstall_mod. rewrite Hext. split; [|split].
  - intros fault Habs. apply stat_join_absent, Path_exists_false in Habs.
    by rewrite Habs.
  - intros fault n Hn Hlink.
    destruct (stat_join_entry _ _ _ _ Hn Hlink) as (k & _ & Hk).
    assert (Path_exists (files w) (join ext X) = true) as ->.
    { apply Path_exists_true. by rewrite Hk. }
    unfold Path_is_symlink. rewrite Hn. by destruct n.
  - intros Hex Hlink.
    destruct (Path_is_symlink_inv _ _ _ Hlink) as (k & t & Hk & Hkt & Hl).
    exists k, t. rewrite Hex Hlink /=. unfold os_unlink. rewrite Hk Hl.
    repeat split; try done. intros q Hq. by rewrite lookup_delete_ne.
Qed.


(** ** Failures of the operating system *)

Lemma prefix_app n b : String.prefix n (n +:+ b) = true.
Proof.
  induction n as [|c n IH]; simpl; [by destruct b|].
  by destruct (ascii_dec c c).
Qed.

Lemma prefix_app_l n h b :
  String.prefix n h = true → String.prefix n (h +:+ b) = true.
Proof.
  revert h. induction n as [|c n IH]; intros h; simpl.
  - intros _. by destruct (h +:+ b).
  - destruct h as [|c' h]; [by destruct n|]. simpl.
    destruct (ascii_dec c c'); [apply IH|done].
Qed.

Lemma contains_app_l n h b :
  Str.contains n h = true → Str.contains n (h +:+ b) = true.
Proof.
  induction h as [|c h IH]; simpl.
  - rewrite orb_false_r. destruct n; [|done]. intros _.
    by destruct b.
  - intros [H|H]%orb_true_iff; apply orb_true_iff.
    + left. by apply (prefix_app_l n (String c h) b).
    + right. by apply IH.
Qed.

Lemma contains_app_r n a h :
  Str.contains n h = true → Str.contains n (a +:+ h) = true.
Proof.
  intros H. induction a as [|c a IH]; simpl; [done|].
  rewrite IH. apply orb_true_r.
Qed.

Lemma contains_of_prefix n h :
  String.prefix n h = true → Str.contains n h = true.
Proof. intros H. destruct h; cbn [Str.contains]; by rewrite H. Qed.

Lemma contains_prefix n b : Str.contains n (n +:+ b) = true.
Proof. apply contains_of_prefix, prefix_app. Qed.

(** The message of a Windows error 1314 shows its number. *)
Lemma str_OSError_1314 e :
  winerror e = Some ERROR_PRIVILEGE_NOT_HELD →
  Str.contains "1314" (str_OSError e) = true.
Proof.
  intros H. unfold str_OSError. rewrite H.
  assert (Str.contains "1314"
            ("[WinError " +:+ pretty ERROR_PRIVILEGE_NOT_HELD +:+ "] "
             +:+ strerror e) = true) as Hhead.
  { apply (contains_app_r _ "[WinError "). apply contains_prefix. }
  destruct (filename e), (filename2 e); auto using contains_app_l.
Qed.

(** C6, as the code has it: when the creation of the link fails,
    [install_mod] answers PermissionDenied for every Windows error 1314
    (a required privilege is not held), and IOError carrying the message
    of the operating system for every failure whose message holds
    neither "privilege", in any case, nor "1314"; the world is
    unchanged. *)
Theorem install_mod_failure_mapping fault w X ext e :
  Path_exists (files w) (join MODS_DIR X) = true →
  get_extensions_dir w = Return ext →
  Path_exists (files w) ext = true →
  Path_exists (files w) (join ext X) = false →
  os_symlink fault (join MODS_DIR X) (join ext X) (files w) = inl e →
  (winerror e = Some ERROR_PRIVILEGE_NOT_HELD →
   install_mod MODS_DIR fault w X = (Raise PermissionDenied, w)) ∧
  (Str.contains "privilege" (Str.lower (str_OSError e)) = false →
   Str.contains "1314" (str_OSError e) = false →
   install_mod MODS_DIR fault w X =
   (Raise (IOError ("Failed to create symlink: " +:+ str_OSError e)), w)).
Proof.
  intros Hmod Hext Hdir Hex He. unfold install_mod.
  rewrite Hmod Hext /= Hdir /= Hex He. split.
  - intros H1314. by rewrite (str_OSError_1314 _ H1314) orb_true_r.
  - by intros -> ->.
Qed.

(** ** Manifests *)

(** C7: [parse_content_xml] reads each field from the attribute of the
    root element and puts the documented default where the attribute is
    absent; [enabled] is true exactly when the attribute, "1" where it
    is absent, equals "1".  A manifest that is malformed, unreadable,
    missing or a directory gives [None], never an exception; the folder
    is then left out by both scans, and the scan of the managed root
    returns its list whatever the manifests hold. *)
Theorem parse_content_xml_defaults m p :
  (∀ d root,
      stat m p = Some (d, File true (Xml root)) →
      ∃ info,
        parse_content_xml m p = Some info ∧
        m_id info = default "unknown" (attrib root !! "id") ∧
        m_name info = default "Unknown Mod" (attrib root !! "name") ∧
        m_author info = default "Unknown" (attrib root !! "author") ∧
        m_version info = default "0" (attrib root !! "version") ∧
        m_description info = default "" (attrib root !! "description") ∧
        m_date info = default "" (attrib root !! "date") ∧
        (∀ v, attrib root !! "enabled" = Some v →
              m_enabled info = bool_decide (v = "1")) ∧
        (attrib root !! "enabled" = None → m_enabled info = true)) ∧
  (∀ d text,
      stat m p = Some (d, File true (Raw text)) →
      parse_content_xml m p = None) ∧
  (∀ d x, stat m p = Some (d, File false x) → parse_content_xml m p = None) ∧
  (∀ d, stat m p = Some (d, Dir) → parse_content_xml m p = None) ∧
  (stat m p = None → parse_content_xml m p = None) ∧
  (∀ folder ext managed_folders,
      p = join folder "content.xml" →
      parse_content_xml m p = None →
      available_mod m ext folder = None ∧
      installed_mod MODS_DIR m managed_folders folder = None) ∧
  (∀ w ext d,
      files w = m →
      get_extensions_dir w = Return ext →
      stat m MODS_DIR = Some (d, Dir) →
      get_available_mods MODS_DIR w =
      Return (omap (available_mod m ext) (join MODS_DIR <$> scandir m d))).
Proof.
  repeat split.
  - intros d root Hst. unfold parse_content_xml, ET_parse. rewrite Hst.
    eexists. split; [done|]. simpl.
    unfold Element_get. repeat split; try done.
    + by intros v ->.
    + by intros ->.
  - intros d text Hst. unfold parse_content_xml, ET_parse. by rewrite Hst.
  - intros d x Hst. unfold parse_content_xml, ET_parse. by rewrite Hst.
  - intros d Hst. unfold parse_content_xml, ET_parse. by rewrite Hst.
  - intros Hst. unfold parse_content_xml, ET_parse. by rewrite Hst.
  - subst p. unfold available_mod. rewrite H0.
    destruct (Path_is_dir m folder); [|done]. by destruct (Path_exists _ _).
  - subst p. unfold installed_mod. rewrite H0.
    destruct (Path_is_dir m folder); [|done]. destruct (_ && _); [done|].
    case_bool_decide; [done|]. by destruct (Path_exists _ _).
  - intros w ext d <-. apply get_available_mods_eq.
Qed.

(** ** Counting the records of a scan *)

Lemma parse_content_xml_exists m p info :
  parse_content_xml m p = Some info → Path_exists m p = true.
Proof.
  unfold parse_content_xml, ET_parse. intros H. apply Path_exists_true.
  by destruct (stat m p).
Qed.

(** A sub-directory is listed, or lacks its manifest, or holds one that
    does not parse. *)
Lemma available_mod_class m ext f :
  Path_is_dir m f = true →
  (is_Some (available_mod m ext f) ∧
   lacks_manifest m f = false ∧ unparsable_manifest m f = false) ∨
  (available_mod m ext f = None ∧
   lacks_manifest m f = true ∧ unparsable_manifest m f = false) ∨
  (available_mod m ext f = None ∧
   lacks_manifest m f = false ∧ unparsable_manifest m f = true).
Proof.
  intros Hd. unfold available_mod, lacks_manifest, unparsable_manifest.
  rewrite Hd. destruct (Path_exists m (join f "content.xml")); simpl.
  - destruct (parse_content_xml m (join f "content.xml")); simpl.
    + left. eauto.
    + right. right. done.
  - right. left. done.
Qed.

Lemma available_mod_partition m ext (all : list path) :
  let folders := filter (λ f, Path_is_dir m f = true) all in
  (length (omap (available_mod m ext) all)
   + count_where (lacks_manifest m) folders
   + count_where (unparsable_manifest m) folders = length folders)%nat.
Proof.
  unfold count_where. induction all as [|f all IH]; [done|].
  cbn [omap list_omap]. cbn zeta in IH.
  destruct (Path_is_dir m f) eqn:Hd.
  - rewrite (filter_cons_True (λ f, Path_is_dir m f = true)); [|done].
    destruct (available_mod_class m ext f Hd)
      as [([r Hr] & Hl & Hu)|[(Hr & Hl & Hu)|(Hr & Hl & Hu)]]; rewrite Hr.
    + rewrite !filter_cons_False; [|congruence..]. simpl. lia.
    + rewrite filter_cons_True; [|done].
      rewrite filter_cons_False; [|congruence]. simpl. lia.
    + rewrite filter_cons_False; [|congruence].
      rewrite filter_cons_True; [|done]. simpl. lia.
  - rewrite (filter_cons_False (λ f, Path_is_dir m f = true)); [|congruence].
    unfold available_mod at 1. rewrite Hd. apply IH.
Qed.

(** C8, as the code has it: the scan of the managed root returns one
    record for each sub-directory whose manifest exists and parses.
    With N sub-directories, M of them without a manifest and U with a
    manifest that does not parse, it returns N - M - U records, none of
    them for a folder without a manifest; when every manifest parses
    that is N - M. *)
Theorem get_available_mods_count w ext :
  get_extensions_dir w = Return ext →
  Path_is_dir (files w) MODS_DIR = true →
  let folders := subfolders (files w) MODS_DIR in
  ∃ l,
    get_available_mods MODS_DIR w = Return l ∧
    (length l
     + count_where (lacks_manifest (files w)) folders
     + count_where (unparsable_manifest (files w)) folders
     = length folders)%nat ∧
    (∀ f, f ∈ folders → lacks_manifest (files w) f = true →
          occurrences (Path_name f) l = 0) ∧
    (count_where (unparsable_manifest (files w)) folders = 0 →
     length l =
     (length folders - count_where (lacks_manifest (files w)) folders)%nat).
Proof.
  intros Hext Hdir folders.
  destruct (Path_is_dir_stat _ _ Hdir) as [d Hd].
  subst folders. rewrite (subfolders_eq _ _ _ Hd).
  rewrite (get_available_mods_eq _ _ _ Hext Hd). eexists. split; [done|].
  pose proof (available_mod_partition (files w) ext
                (join MODS_DIR <$> scandir (files w) d)) as Hpart.
  cbn zeta in Hpart. split; [done|]. split; [|intros HU; lia].
  intros f Hf Hlack. apply occurrences_scan_zero.
  intros c r _ Hr Hname.
  apply available_mod_Some in Hr as (_ & Hxml & _ & Hn & _).
  rewrite Path_name_join in Hn.
  apply list_elem_of_filter in Hf as [_ Hf].
  apply list_elem_of_fmap in Hf as (c' & -> & _).
  rewrite Path_name_join in Hname.
  assert (c = c') as -> by congruence.
  move: Hlack. unfold lacks_manifest. by rewrite Hxml.
Qed.

(** ** No mod is reported twice *)

Lemma stat_join_inv m p c :
  is_Some (stat m (join p c)) →
  ∃ d, stat m p = Some (d, Dir) ∧ is_Some (m !! join d c).
Proof.
  intros H. apply Path_exists_true, Path_exists_join_lstat in H.
  move: H. rewrite lstat_join.
  destruct (stat m p) as [[d [|r x|t]]|]; try by intros [].
  intros H. by exists d.
Qed.

Lemma managed_folder_names_elem m X :
  Path_is_dir m (join MODS_DIR X) = true →
  ∃ S, managed_folder_names MODS_DIR m = Return S ∧ X ∈ S.
Proof.
  intros Hd. pose proof (Path_is_dir_exists _ _ Hd) as Hex.
  apply Path_exists_true, stat_join_inv in Hex as (d & Hst & Hin).
  unfold managed_folder_names, Path_iterdir.
  assert (Path_exists m MODS_DIR = true) as ->.
  { apply Path_exists_true. by rewrite Hst. }
  rewrite Hst /=. eexists. split; [done|].
  apply elem_of_list_to_set, list_elem_of_fmap.
  exists (join MODS_DIR X). split; [by rewrite Path_name_join|].
  apply list_elem_of_filter. split; [done|].
  apply list_elem_of_fmap. exists X. split; [done|].
  by apply elem_of_scandir.
Qed.

Lemma get_installed_mods_Return w l :
  get_installed_mods MODS_DIR w = Return l →
  ∃ ext,
    get_extensions_dir w = Return ext ∧
    ((Path_exists (files w) ext = false ∧ l = []) ∨
     ∃ S d,
       managed_folder_names MODS_DIR (files w) = Return S ∧
       l = omap (installed_mod MODS_DIR (files w) S)
             (join ext <$> scandir (files w) d)).
Proof.
  unfold get_installed_mods.
  destruct (get_extensions_dir w) as [ext|e]; [|done]. simpl.
  intros H. exists ext. split; [done|]. move: H.
  destruct (Path_exists (files w) ext); simpl.
  2:{ intros [= <-]. by left. }
  destruct (managed_folder_names MODS_DIR (files w)) as [S|e]; [|done].
  simpl.
  destruct (Path_iterdir (files w) ext) as [folders|e] eqn:E; [|done].
  intros [= <-]. apply Path_iterdir_Return in E as (d & Hd & ->).
  right. by exists S, d.
Qed.

Lemma list_mods_Return w L :
  list_mods MODS_DIR w = Return L →
  get_available_mods MODS_DIR w = Return (managed L) ∧
  get_installed_mods MODS_DIR w = Return (external L).
Proof.
  unfold list_mods.
  destruct (get_available_mods MODS_DIR w) as [a|e]; [|done].
  destruct (get_installed_mods MODS_DIR w) as [i|e]; [|done].
  destruct (get_extensions_dir w) as [x|e]; [|done].
  by intros [= <-].
Qed.

(** C1, as the code has it: when [X] is a directory under the managed
    root it is never reported in the external list; and when, moreover,
    its manifest parses and the path of the same name under the
    extensions directory resolves, it is reported exactly once in the
    two lists together, in the managed list, as a managed record with
    [is_installed] set. *)
Theorem list_mods_no_duplicate w X L :
  list_mods MODS_DIR w = Return L →
  Path_is_dir (files w) (join MODS_DIR X) = true →
  occurrences X (external L) = 0 ∧
  (∀ ext info,
      get_extensions_dir w = Return ext →
      parse_content_xml (files w) (join (join MODS_DIR X) "content.xml")
        = Some info →
      Path_exists (files w) (join ext X) = true →
      ∃ r,
        filter (λ r, folder_name r = X) (managed L) = [r] ∧
        is_managed r = true ∧ is_installed r = true ∧
        occurrences X (managed L ++ external L) = 1).
Proof.
  intros HL Hd. apply list_mods_Return in HL as [Hman Hext].
  assert (occurrences X (external L) = 0) as Hzero.
  { apply get_installed_mods_Return in Hext
      as (ext & _ & [[_ ->]|(S & d & HS & ->)]); [done|].
    destruct (managed_folder_names_elem _ _ Hd) as (S' & HS' & HX).
    assert (S' = S) as -> by congruence.
    apply occurrences_scan_zero. intros c r _ Hr Hname.
    apply installed_mod_Some in Hr as (Hnot & Hn & _).
    rewrite Path_name_join in Hnot. rewrite Path_name_join in Hn.
    congruence. }
  split; [done|]. intros ext info Hx Hparse Hinst.
  pose proof (Path_is_dir_exists _ _ Hd) as Hex.
  apply Path_exists_true, stat_join_inv in Hex as (d & Hst & Hin).
  rewrite (get_available_mods_eq _ _ _ Hx Hst) in Hman.
  injection Hman as Hman.
  assert (∃ r, available_mod (files w) ext (join MODS_DIR X) = Some r ∧
               folder_name r = X ∧
               is_managed r = true ∧ is_installed r = true)
    as (r & Hr & Hname & Hm & Hi).
  { unfold available_mod.
    rewrite Hd (parse_content_xml_exists _ _ _ Hparse) Hparse.
    rewrite Path_name_join Hinst. eexists. split; [done|]. done. }
  exists r.
  assert (filter (λ r, folder_name r = X) (managed L) = [r]) as Hone.
  { rewrite -Hman. apply occurrences_scan_one; try done.
    - apply NoDup_scandir.
    - by apply elem_of_scandir.
    - intros c r' Hr'. apply available_mod_Some in Hr' as (_ & _ & _ & Hn & _).
      by rewrite Path_name_join in Hn. }
  repeat split; try done.
  unfold occurrences in *. by rewrite filter_app length_app Hone Hzero.
Qed.

(** ** The settings file *)

(** Follows a route into each of its branches. *)
Ltac every_branch :=
  repeat (match goal with
          | |- context [if ?b then _ else _] => destruct b
          | |- context [match ?x with _ => _ end] => destruct x
          end; try done).

Lemma length_take k s :
  (k ≤ String.length s)%nat → String.length (Str.take k s) = k.
Proof.
  revert s. induction k as [|k IH]; intros s; [by destruct s|].
  destruct s as [|c s]; simpl; [lia|]. intros H. rewrite IH; [done|lia].
Qed.

(** C9, as the code has it: [save_config] writes the file in place.  A
    save that succeeds leaves the complete new document; one that fails
    before the file is opened leaves the file as it was; one that fails
    after [written] characters, fewer than the document has, leaves
    exactly those characters of the new document, which is not the
    complete new document and which [load_config] then rejects.
    [set_extensions_dir] is the only route that writes the file. *)
Theorem save_config_in_place w c :
  save_config None c w =
    (Return (), with_config_file w (Some (Complete c))) ∧
  (∀ e, save_config (Some (OpenFails e)) c w = (Raise (OSError_exn e), w)) ∧
  (∀ written e,
      (written < String.length (Json.dumps c))%nat →
      ∃ d,
        save_config (Some (WriteFails written e)) c w =
          (Raise (OSError_exn e), with_config_file w (Some d)) ∧
        doc_text d = Str.take written (Json.dumps c) ∧
        doc_text d ≠ Json.dumps c ∧
        load_config (with_config_file w (Some d)) = Raise JSONDecodeError) ∧
  (∀ fault X,
      config_file (install_mod MODS_DIR fault w X).2 = config_file w ∧
      config_file (uninstall_mod fault w X).2 = config_file w) ∧
  (∀ unlink_fault rmtree_fault X,
      config_file (delete_mod MODS_DIR unlink_fault rmtree_fault w X).2
      = config_file w) ∧
  (∀ fault data old,
      let new_path := Str.strip (config_get data "path" "") in
      new_path ≠ "" →
      Path_exists (files w) (Path new_path) = true →
      load_config w = Return old →
      (set_extensions_dir fault w data).2 =
      (save_config fault (config_set old "extensions_dir" new_path) w).2).
Proof.
  split; [done|]. split; [done|]. split; [|split; [|split]].
  - intros written e Hlt. unfold save_config, written_prefix.
    apply Nat.ltb_lt in Hlt as Hb. rewrite Hb. eexists. split; [done|].
    simpl. split; [done|]. split; [|done].
    intros Heq. apply (f_equal String.length) in Heq.
    rewrite length_take in Heq; lia.
  - intros fault X. split.
    + unfold install_mod. every_branch.
    + unfold uninstall_mod. every_branch.
  - intros uf rf X. unfold delete_mod. every_branch.
  - intros fault data old new_path Hne Hex Hold. unfold set_extensions_dir.
    fold new_path. rewrite bool_decide_eq_false_2 // Hex Hold /=.
    by destruct fault as [[e|k e]|].
Qed.

End Properties.

(** * The small installation, checked *)

(** ** C1 *)

(** [B] is a directory under the managed root and a directory under the
    extensions directory, and is reported in neither list: under the
    managed root it has no manifest, under the extensions directory its
    name is taken by the managed folder. *)
Lemma list_mods_unlisted_name :
  Path_is_dir (files Demo.w0) (join Demo.M "B") = true ∧
  lstat (files Demo.w0) (join Demo.E "B") = Some Dir ∧
  ∃ L, list_mods Demo.M Demo.w0 = Return L ∧
       occurrences "B" (managed L ++ external L) = 0.
Proof.
  split; [by vm_compute|]. split; [by vm_compute|].
  eexists. split; [by vm_compute|]. by vm_compute.
Qed.

Lemma list_mods_no_duplicate_witness :
  list_mods Demo.M Demo.w1 =
    Return (mkListing [Demo.record_D; Demo.record_A] [Demo.record_F]
              "/game/extensions" "/app/mods") ∧
  Path_is_dir (files Demo.w1) (join Demo.M "A") = true ∧
  occurrences "A" [Demo.record_F] = 0 ∧
  ∃ r, filter (λ r, folder_name r = "A") [Demo.record_D; Demo.record_A] = [r] ∧
       is_managed r = true ∧ is_installed r = true ∧
       occurrences "A" ([Demo.record_D; Demo.record_A] ++ [Demo.record_F]) = 1.
Proof.
  assert (list_mods Demo.M Demo.w1 =
            Return (mkListing [Demo.record_D; Demo.record_A] [Demo.record_F]
                      "/game/extensions" "/app/mods")) as HL.
  { vm_compute. reflexivity. }
  assert (Path_is_dir (files Demo.w1) (join Demo.M "A") = true) as Hd.
  { vm_compute. reflexivity. }
  destruct (list_mods_no_duplicate Demo.M Demo.w1 "A" _ HL Hd) as [H0 H1].
  split; [exact HL|]. split; [exact Hd|]. split; [exact H0|].
  apply (H1 Demo.E
           (mkManifest "mod_a" "Mod A" "Unknown" "0" "" "" false));
    vm_compute; reflexivity.
Defined.

(** ** C2 *)



(** ** C3 *)

Lemma install_mod_preconditions_witness :
  install_mod Demo.M None Demo.w0 "nope" = (Raise (NotFound "nope"), Demo.w0) ∧
  install_mod Demo.M None Demo.w_unset "A" =
    (Raise (InvalidConfig ["nowhere"]), Demo.w_unset) ∧
  install_mod Demo.M None Demo.w0 "B" = (Raise Conflict, Demo.w0).
Proof.
  split; [|split].
  - apply (install_mod_preconditions Demo.M None Demo.w0 "nope").
    vm_compute. reflexivity.
  - apply (install_mod_preconditions Demo.M None Demo.w_unset "A");
      vm_compute; reflexivity.
  - apply (proj1 (proj2 (proj2
             (install_mod_preconditions Demo.M None Demo.w0 "B")))
             Demo.E Dir); vm_compute; reflexivity.
Defined.

(** ** C4 *)

(** The entry [D] under the extensions directory is a link, and
    [uninstall_mod] answers not_installed and leaves it in place. *)
Lemma uninstall_mod_dangling_link :
  get_extensions_dir Demo.w0 = Return Demo.E ∧
  lstat (files Demo.w0) (join Demo.E "D") = Some (Symlink ["old"; "D"]) ∧
  uninstall_mod None Demo.w0 "D" = (Return not_installed, Demo.w0).
Proof. repeat split; by vm_compute. Qed.

Lemma uninstall_mod_cases_witness :
  get_extensions_dir Demo.w1 = Return Demo.E ∧
  uninstall_mod None Demo.w1 "nope" = (Return not_installed, Demo.w1) ∧
  uninstall_mod None Demo.w1 "F" = (Raise Refused, Demo.w1) ∧
  ∃ k t,
    locate (files Demo.w1) (join Demo.E "A") = Some k ∧
    files Demo.w1 !! k = Some (Symlink t) ∧
    uninstall_mod None Demo.w1 "A" =
      (Return (success "Uninstalled A"),
       with_files Demo.w1 (delete k (files Demo.w1))).
Proof.
  assert (get_extensions_dir Demo.w1 = Return Demo.E) as Hext.
  { vm_compute. reflexivity. }
  split; [exact Hext|]. split; [|split].
  - apply (uninstall_mod_cases Demo.w1 "nope" Demo.E Hext).
    vm_compute. reflexivity.
  - apply (proj1 (proj2 (uninstall_mod_cases Demo.w1 "F" Demo.E Hext))
             None Dir); vm_compute; reflexivity.
  - destruct (proj2 (proj2 (uninstall_mod_cases Demo.w1 "A" Demo.E Hext)))
      as (k & t & Hk & Hkt & Hun & _).
    + vm_compute. reflexivity.
    + vm_compute. reflexivity.
    + exists k, t. repeat split; assumption.
Defined.

(** ** C5 *)



(** ** C6 *)

(** A permission denial of the operating system surfaces as the generic
    IOError, and a failure that is no permission denial, the name being
    taken already, surfaces as PermissionDenied because the folder is
    called [mod1314]. *)
Lemma install_mod_denial_misreported :
  (is_permission_denial Demo.denied = true ∧
   install_mod Demo.M (Some Demo.denied) Demo.w0 "A" =
     (Raise (IOError "Failed to create symlink: [Errno 13] Permission denied: '/app/mods/A' -> '/game/extensions/A'"),
      Demo.w0)) ∧
  (os_symlink None (join Demo.M "mod1314") (join Demo.E "mod1314")
     (files Demo.w0) =
     inl (FileExistsError (join Demo.M "mod1314") (join Demo.E "mod1314")) ∧
   is_permission_denial
     (FileExistsError (join Demo.M "mod1314") (join Demo.E "mod1314")) = false ∧
   install_mod Demo.M None Demo.w0 "mod1314" = (Raise PermissionDenied, Demo.w0)).
Proof. repeat split; by vm_compute. Qed.

Lemma install_mod_failure_mapping_witness :
  install_mod Demo.M (Some Demo.not_held) Demo.w0 "A" =
    (Raise PermissionDenied, Demo.w0) ∧
  install_mod Demo.M (Some Demo.disk_full) Demo.w0 "A" =
    (Raise (IOError "Failed to create symlink: [Errno 28] No space left on device"),
     Demo.w0).
Proof.
  split.
  - apply (install_mod_failure_mapping Demo.M (Some Demo.not_held) Demo.w0
             "A" Demo.E Demo.not_held); vm_compute; reflexivity.
  - apply (proj2 (install_mod_failure_mapping Demo.M (Some Demo.disk_full)
                    Demo.w0 "A" Demo.E Demo.disk_full
                    ltac:(vm_compute; reflexivity)
                    ltac:(vm_compute; reflexivity)
                    ltac:(vm_compute; reflexivity)
                    ltac:(vm_compute; reflexivity)
                    ltac:(vm_compute; reflexivity)));
      vm_compute; reflexivity.
Defined.

(** ** C7 *)

Lemma parse_content_xml_defaults_witness :
  (∃ info,
      parse_content_xml Demo.tree (Demo.M ++ ["A"; "content.xml"]) = Some info ∧
      m_id info = "mod_a" ∧ m_name info = "Mod A" ∧
      m_author info = "Unknown" ∧ m_version info = "0" ∧
      m_description info = "" ∧ m_date info = "" ∧
      m_enabled info = false) ∧
  parse_content_xml Demo.tree (Demo.M ++ ["C"; "content.xml"]) = None ∧
  available_mod Demo.tree Demo.E (Demo.M ++ ["C"]) = None.
Proof.
  split; [|split].
  - destruct (proj1 (parse_content_xml_defaults Demo.M Demo.tree
                       (Demo.M ++ ["A"; "content.xml"]))
                (Demo.M ++ ["A"; "content.xml"]) Demo.manifest_A)
      as (info & Hp & H1 & H2 & H3 & H4 & H5 & H6 & H7 & _).
    + vm_compute. reflexivity.
    + exists info. repeat split; try assumption.
      apply (H7 "0"). vm_compute. reflexivity.
  - apply (proj1 (proj2 (parse_content_xml_defaults Demo.M Demo.tree
                           (Demo.M ++ ["C"; "content.xml"])))
             (Demo.M ++ ["C"; "content.xml"]) "<content").
    vm_compute. reflexivity.
  - apply (proj1 (proj2 (proj2 (proj2 (proj2 (proj2
             (parse_content_xml_defaults Demo.M Demo.tree
                (Demo.M ++ ["C"; "content.xml"])))))))
             (Demo.M ++ ["C"]) Demo.E ∅); vm_compute; reflexivity.
Defined.

(** ** C8 *)

(** The managed root holds five sub-directories, two of them without a
    manifest, and the scan returns two records, not three: the manifest of
    [C] does not parse. *)
Lemma get_available_mods_short_count :
  length (subfolders Demo.tree Demo.M) = 5 ∧
  count_where (lacks_manifest Demo.tree) (subfolders Demo.tree Demo.M) = 2 ∧
  get_available_mods Demo.M Demo.w0 =
    Return [Demo.record_D; Demo.record_A0] ∧
  length [Demo.record_D; Demo.record_A0] ≠ (5 - 2)%nat.
Proof. repeat split; by vm_compute. Qed.

Lemma get_available_mods_count_witness :
  get_extensions_dir Demo.w0 = Return Demo.E ∧
  Path_is_dir (files Demo.w0) Demo.M = true ∧
  ∃ l,
    get_available_mods Demo.M Demo.w0 = Return l ∧
    (length l
     + count_where (lacks_manifest Demo.tree) (subfolders Demo.tree Demo.M)
     + count_where (unparsable_manifest Demo.tree) (subfolders Demo.tree Demo.M)
     = length (subfolders Demo.tree Demo.M))%nat ∧
    occurrences "B" l = 0.
Proof.
  assert (get_extensions_dir Demo.w0 = Return Demo.E) as H1.
  { vm_compute. reflexivity. }
  assert (Path_is_dir (files Demo.w0) Demo.M = true) as H2.
  { vm_compute. reflexivity. }
  split; [exact H1|]. split; [exact H2|].
  destruct (get_available_mods_count Demo.M Demo.w0 Demo.E H1 H2)
    as (l & Hl & Hsum & Hlack & _).
  exists l. split; [exact Hl|]. split; [exact Hsum|].
  apply (Hlack (join Demo.M "B")).
  - vm_compute. apply list_elem_of_In. right. right. left. reflexivity.
  - vm_compute. reflexivity.
Defined.

(** ** C9 *)

(** The disk fills up as soon as the settings file has been opened: the
    route raises and the file, which held a complete document, is left
    empty, neither the old document nor the new one. *)
Lemma set_extensions_dir_truncates :
  config_file Demo.w0 = Some (Complete Demo.cfg) ∧
  ∃ d,
    set_extensions_dir (Some (WriteFails 0 Demo.disk_full)) Demo.w0
      [("path", "/game")] =
      (Raise (OSError_exn Demo.disk_full),
       with_config_file Demo.w0 (Some d)) ∧
    doc_text d = "" ∧
    doc_text d ≠ Json.dumps Demo.cfg ∧
    doc_text d ≠ Json.dumps [("extensions_dir", "/game")].
Proof.
  split; [reflexivity|]. exists (Partial "").
  repeat split; by vm_compute.
Qed.

Lemma save_config_in_place_witness :
  ∃ d,
    save_config (Some (WriteFails 5 Demo.disk_full))
      [("extensions_dir", "/game")] Demo.w0 =
      (Raise (OSError_exn Demo.disk_full),
       with_config_file Demo.w0 (Some d)) ∧
    doc_text d = Str.take 5 (Json.dumps [("extensions_dir", "/game")]) ∧
    doc_text d ≠ Json.dumps [("extensions_dir", "/game")] ∧
    load_config (with_config_file Demo.w0 (Some d)) = Raise JSONDecodeError.
Proof.
  apply (proj1 (proj2 (proj2
           (save_config_in_place Demo.M Demo.w0
              [("extensions_dir", "/game")])))).
  vm_compute. lia.
Defined.

(** ** C10 *)

Lemma install_mod_needs_no_manifest_witness :
  Path_exists (files Demo.w0) (join Demo.M "readme") = true ∧
  (∃ k,
      locate (files Demo.w0) (join Demo.E "readme") = Some k ∧
      install_mod Demo.M None Demo.w0 "readme" =
      (Return (success "Installed readme"),
       with_files Demo.w0
         (<[k := Symlink (join Demo.M "readme")]> (files Demo.w0)))) ∧
  ∀ l, get_available_mods Demo.M Demo.w0 = Return l →
       occurrences "readme" l = 0.
Proof.
  assert (Path_exists (files Demo.w0) (join Demo.M "readme") = true) as H1.
  { vm_compute. reflexivity. }
  destruct (install_mod_needs_no_manifest Demo.M Demo.w0 "readme" H1)
    as (_ & Hcreate & Hlist).
  split; [exact H1|]. split.
  - apply (Hcreate Demo.E); vm_compute; reflexivity.
  - apply Hlist. vm_compute. reflexivity.
Defined.

(** * Further properties of the program *)

(** ** More on path resolution *)


(** A larger link budget does not lose a resolution. *)
Lemma walk_fuel_S f m cur rest r :
  walk f m cur rest = Some r → walk (S f) m cur rest = Some r.
Proof.
  revert cur rest. induction f as [|f IHf]; intros cur rest; [done|].
  revert cur. induction rest as [|c rest IHrest]; intros cur.
  - by rewrite !walk_nil.
  - rewrite (walk_cons (S f)) (walk_cons f).
    destruct (m !! join cur c) as [[|b x|t]|]; try done.
    + apply IHrest.
    + apply IHf.
Qed.

Lemma walk_fuel_le f f' m cur rest r :
  (f ≤ f')%nat → walk f m cur rest = Some r → walk f' m cur rest = Some r.
Proof.
  intros Hle. induction Hle as [|f' Hle IH]; [done|].
  intros Hw. by apply walk_fuel_S, IH.
Qed.







(** A link whose target does not resolve does not exist. *)
Lemma stat_join_dangling m p c t :
  lstat m (join p c) = Some (Symlink t) → stat m t = None →
  stat m (join p c) = None.
Proof.
  rewrite lstat_join. unfold stat, join.
  destruct (walk _ m [] p) as [[d [|b x|t']]|] eqn:E; try done.
  intros Hl Ht. destruct (walk_app_Dir _ _ _ _ _ E) as (f' & Hf' & ->).
  rewrite walk_cons. unfold join. rewrite Hl app_nil_r.
  destruct (walk f' m [] t) as [r|] eqn:Hw; [|done].
  apply (walk_fuel_le _ (S SYMLOOP_MAX)) in Hw; [congruence|lia].
Qed.

(** ** The settings dictionary *)

Lemma config_get_set_eq c key value dflt :
  config_get (config_set c key value) key dflt = value.
Proof.
  induction c as [|[k v] c IH]; simpl.
  - by rewrite decide_True.
  - destruct (decide (k = key)) as [->|Hne]; simpl.
    + by rewrite decide_True.
    + by rewrite decide_False.
Qed.

Lemma config_get_set_ne c key key' value dflt :
  key ≠ key' →
  config_get (config_set c key value) key' dflt = config_get c key' dflt.
Proof.
  intros Hne. induction c as [|[k v] c IH]; simpl.
  - by rewrite decide_False.
  - destruct (decide (k = key)) as [->|Hk]; simpl.
    + by rewrite !decide_False.
    + destruct (decide (k = key')); [done|apply IH].
Qed.

Section More.

Variable MODS_DIR : path.

(** ** Installing, listing and uninstalling together *)

Lemma install_mod_real w X ext :
  is_real_dir (files w) (join MODS_DIR X) = true →
  get_extensions_dir w = Return ext →
  is_real_dir (files w) ext = true →
  files w !! join ext X = None →
  install_mod MODS_DIR None w X =
    (Return (success ("Installed " +:+ X)),
     with_files w (<[join ext X := Symlink (join MODS_DIR X)]> (files w))).
Proof.
  intros Hmod Hext Hreal Hfresh.
  assert (lstat (files w) (join ext X) = None) as Habs.
  { by rewrite lstat_join (stat_real _ _ Hreal). }
  destruct (install_mod_creates MODS_DIR w X ext) as (k & Hk & _ & ->);
    auto using is_real_dir_exists, is_real_dir_is_dir.
  move: Hk. rewrite locate_join (stat_real _ _ Hreal). by intros [= <-].
Qed.

(** The tree with the new link in it. *)
Lemma fresh_link_resolves (m : fs) p ext X :
  is_real_dir m p = true →
  is_real_dir m ext = true →
  m !! join ext X = None →
  let m1 := <[join ext X := Symlink p]> m in
  is_real_dir m1 p = true ∧ is_real_dir m1 ext = true ∧
  stat m1 (join ext X) = Some (p, Dir) ∧
  lstat m1 (join ext X) = Some (Symlink p) ∧
  locate m1 (join ext X) = Some (join ext X).
Proof.
  intros Hp Hext Hfresh m1.
  pose proof (is_real_from_insert _ _ _ _ (Symlink p) Hfresh Hp) as Hp1.
  pose proof (is_real_from_insert _ _ _ _ (Symlink p) Hfresh Hext) as Hext1.
  repeat split; try done.
  - rewrite (stat_real_join _ _ _ Hext1) walk_cons. subst m1.
    rewrite lookup_insert_eq app_nil_r. change SYMLOOP_MAX with (S 39).
    by rewrite (walk_real_dir _ _ _ Hp1).
  - subst m1. by rewrite lstat_join (stat_real _ _ Hext1) lookup_insert_eq.
  - by rewrite locate_join (stat_real _ _ Hext1).
Qed.



(** X2: [uninstall_mod] undoes [install_mod]: after a successful install
    the uninstall answers success and the world is the one before the
    install. *)
Theorem install_uninstall_round_trip w X ext :
  is_real_dir (files w) (join MODS_DIR X) = true →
  get_extensions_dir w = Return ext →
  is_real_dir (files w) ext = true →
  files w !! join ext X = None →
  uninstall_mod None (install_mod MODS_DIR None w X).2 X =
    (Return (success ("Uninstalled " +:+ X)), w).
Proof.
  intros Hmod Hext Hreal Hfresh.
  rewrite (install_mod_real _ _ _ Hmod Hext Hreal Hfresh). simpl.
  destruct (fresh_link_resolves _ _ _ _ Hmod Hreal Hfresh)
    as (_ & _ & Hst & Hl & Hk).
  unfold uninstall_mod.
  change (get_extensions_dir (with_files w _)) with (get_extensions_dir w).
  rewrite Hext. simpl.
  assert (Path_exists (<[join ext X := Symlink (join MODS_DIR X)]> (files w))
            (join ext X) = true) as ->.
  { apply Path_exists_true. by rewrite Hst. }
  unfold Path_is_symlink, os_unlink. rewrite Hl Hk /=.
  unfold with_files. simpl. rewrite delete_insert_id //.
  by destruct w.
Qed.

(** X3: [uninstall_mod] is idempotent: where the link under a real
    extensions directory resolves, the first call removes it and a second
    call answers not_installed and changes nothing. *)
Theorem uninstall_mod_twice w X ext :
  get_extensions_dir w = Return ext →
  is_real_dir (files w) ext = true →
  Path_exists (files w) (join ext X) = true →
  Path_is_symlink (files w) (join ext X) = true →
  let w1 := with_files w (delete (join ext X) (files w)) in
  uninstall_mod None w X = (Return (success ("Uninstalled " +:+ X)), w1) ∧
  ∀ fault, uninstall_mod fault w1 X = (Return not_installed, w1).
Proof.
  intros Hext Hreal Hex Hlink w1.
  destruct (Path_is_symlink_inv _ _ _ Hlink) as (k & t & Hk & Hkt & Hl).
  move: Hk. rewrite locate_join (stat_real _ _ Hreal). intros [= <-].
  split.
  - unfold uninstall_mod. rewrite Hext Hex Hlink /=.
    unfold os_unlink. by rewrite locate_join (stat_real _ _ Hreal) Hl.
  - intros fault. unfold uninstall_mod.
    change (get_extensions_dir w1) with (get_extensions_dir w). rewrite Hext.
    pose proof (is_real_from_delete _ _ _ _ _ Hkt eq_refl Hreal) as Hreal1.
    assert (lstat (files w1) (join ext X) = None) as Habs.
    { simpl. by rewrite lstat_join (stat_real _ _ Hreal1) lookup_delete_eq. }
    apply stat_join_absent, Path_exists_false in Habs. by rewrite Habs.
Qed.

(** ** Deleting *)





(** X5: a link left behind by a managed folder that is gone cannot be
    removed through the program: [uninstall_mod] answers not_installed,
    [delete_mod] and [install_mod] answer NotFound, and none of them
    changes the world. *)
Theorem orphan_link_stays w X ext :
  Path_exists (files w) (join MODS_DIR X) = false →
  get_extensions_dir w = Return ext →
  lstat (files w) (join ext X) = Some (Symlink (join MODS_DIR X)) →
  (∀ fault, uninstall_mod fault w X = (Return not_installed, w)) ∧
  (∀ unlink_fault rmtree_fault,
      delete_mod MODS_DIR unlink_fault rmtree_fault w X =
      (Raise (NotFound X), w)) ∧
  (∀ fault, install_mod MODS_DIR fault w X = (Raise (NotFound X), w)) ∧
  Path_is_symlink (files w) (join ext X) = true.
Proof.
  intros Hmod Hext Hl. repeat split.
  - intros fault. unfold uninstall_mod. rewrite Hext.
    apply Path_exists_false in Hmod.
    pose proof (stat_join_dangling _ _ _ _ Hl Hmod) as Hnone.
    apply Path_exists_false in Hnone. by rewrite Hnone.
  - intros uf rf. unfold delete_mod. by rewrite Hmod.
  - intros fault. unfold install_mod. by rewrite Hmod.
  - unfold Path_is_symlink. by rewrite Hl.
Qed.

(** ** Settings *)

(** X6: a successful [set_extensions_dir] is read back by
    [get_extensions_dir]: the directory is the path that was sent, with
    the white space around it removed; the other settings keep their
    values and the tree is not touched. *)
Theorem set_then_get_extensions_dir w data old :
  let new_path := Str.strip (config_get data "path" "") in
  new_path ≠ "" →
  Path_exists (files w) (Path new_path) = true →
  load_config w = Return old →
  let w' := (set_extensions_dir None w data).2 in
  (set_extensions_dir None w data).1 =
    Return {| settings_status := "success"; settings_path := new_path |} ∧
  get_extensions_dir w' = Return (Path new_path) ∧
  files w' = files w ∧
  ∃ c, load_config w' = Return c ∧
       ∀ key dflt, key ≠ "extensions_dir" →
                   config_get c key dflt = config_get old key dflt.
Proof.
  intros new_path Hne Hex Hold. unfold set_extensions_dir. fold new_path.
  rewrite bool_decide_eq_false_2 // Hex Hold /=. split; [done|].
  split; [|split; [done|]].
  - unfold get_extensions_dir. simpl. by rewrite config_get_set_eq.
  - eexists. split; [done|]. intros key dflt Hkey.
    by apply config_get_set_ne.
Qed.

(** ** Listings *)

Lemma NoDup_scan_names (f : path → option ModInfo) P names :
  (∀ c r, f (join P c) = Some r → folder_name r = c) →
  NoDup names →
  NoDup (folder_name <$> omap f (join P <$> names)).
Proof.
  intros Hname. induction 1 as [|c names Hc Hnd IH]; simpl; [constructor|].
  destruct (f (join P c)) as [r|] eqn:E; [|done].
  simpl. constructor; [|done].
  rewrite (Hname _ _ E). intros Hin.
  apply list_elem_of_fmap in Hin as (r' & -> & Hr').
  apply list_elem_of_omap in Hr' as (folder & Hfolder & Hf).
  apply list_elem_of_fmap in Hfolder as (c' & -> & Hc').
  by rewrite (Hname _ _ Hf) in Hc.
Qed.

Lemma available_mod_name m ext c r :
  available_mod m ext (join MODS_DIR c) = Some r → folder_name r = c.
Proof.
  intros H. apply available_mod_Some in H as (_ & _ & _ & Hn & _).
  by rewrite Path_name_join in Hn.
Qed.

Lemma installed_mod_name m S ext c r :
  installed_mod MODS_DIR m S (join ext c) = Some r → folder_name r = c.
Proof.
  intros H. apply installed_mod_Some in H as (_ & Hn & _).
  by rewrite Path_name_join in Hn.
Qed.

(** X7: in a listing no folder name occurs twice in the managed list,
    none occurs twice in the external list, and none occurs in both. *)
Theorem list_mods_names_distinct w L :
  list_mods MODS_DIR w = Return L →
  NoDup (folder_name <$> managed L) ∧
  NoDup (folder_name <$> external L) ∧
  ∀ r r', r ∈ managed L → r' ∈ external L → folder_name r ≠ folder_name r'.
Proof.
  intros HL. apply list_mods_Return in HL as [Hman Hinst].
  apply get_available_mods_Return in Hman as Hman'.
  apply get_installed_mods_Return in Hinst as (ext & Hext & Hinst').
  split; [|split].
  - destruct Hman' as [[_ ->]|(ext' & d & _ & _ & ->)]; [constructor|].
    apply NoDup_scan_names; [|apply NoDup_scandir].
    intros c r. apply available_mod_name.
  - destruct Hinst' as [[_ ->]|(S & d & _ & ->)]; [constructor|].
    apply NoDup_scan_names; [|apply NoDup_scandir].
    intros c r. apply installed_mod_name.
  - intros r r' Hr Hr' Heq.
    destruct Hman' as [[_ Hnil]|(ext' & d & _ & _ & Hl)].
    { rewrite Hnil in Hr. by apply elem_of_nil in Hr. }
    destruct Hinst' as [[_ Hnil]|(S & d' & HS & Hl')].
    { rewrite Hnil in Hr'. by apply elem_of_nil in Hr'. }
    rewrite Hl in Hr. rewrite Hl' in Hr'.
    apply list_elem_of_omap in Hr as (folder & Hfolder & Hf).
    apply list_elem_of_fmap in Hfolder as (c & -> & _).
    apply list_elem_of_omap in Hr' as (folder' & Hfolder' & Hf').
    apply list_elem_of_fmap in Hfolder' as (c' & -> & _).
    pose proof (available_mod_name _ _ _ _ Hf) as Hc.
    pose proof (installed_mod_name _ _ _ _ _ Hf') as Hc'.
    apply available_mod_Some in Hf as (Hdir & _).
    apply installed_mod_Some in Hf' as (Hnot & _).
    rewrite Path_name_join in Hnot.
    destruct (managed_folder_names_elem MODS_DIR _ _ Hdir) as (S' & HS' & Hin).
    assert (S' = S) as -> by congruence.
    apply Hnot. congruence.
Qed.



(** ** The symlink probe *)

Lemma probe_names_differ (tmp : path) (s : string) :
  join tmp ("_symlink_test_" +:+ s) ≠ join tmp ("_symlink_target_" +:+ s).
Proof. intros [_ H]%app_inj_tail. simpl in H. by simplify_eq. Qed.

Lemma scandir_empty (m : fs) d :
  (∀ c, m !! join d c = None) → scandir m d = [].
Proof.
  intros Hnone. destruct (scandir m d) as [|c l] eqn:E; [done|].
  assert (c ∈ scandir m d) as Hc by (rewrite E; by left).
  apply elem_of_scandir in Hc. rewrite Hnone in Hc. by destruct Hc.
Qed.

Lemma scandir_nil_absent (m : fs) d :
  scandir m d = [] → ∀ c, m !! join d c = None.
Proof.
  intros Hnil c. destruct (m !! join d c) as [n|] eqn:E; [|done].
  assert (c ∈ scandir m d) as Hc by (apply elem_of_scandir; eauto).
  rewrite Hnil in Hc. by apply elem_of_nil in Hc.
Qed.

Lemma join_join_ne (p : path) c c' : join (join p c) c' ≠ join p c.
Proof.
  unfold join. intros H. apply (f_equal length) in H.
  rewrite !length_app /= in H. lia.
Qed.

(** X10: [check_symlink_capability] cleans up after itself.  In a real
    temporary directory where its two names are free it answers True when
    the operating system lets every step through and False when the
    creation of the link is refused, and either way the tree is left as
    it was found. *)
Theorem check_symlink_capability_no_trace (tmp : path) (pid : Z) (m : fs) :
  is_real_dir m tmp = true →
  m !! join tmp ("_symlink_test_" +:+ pretty pid) = None →
  m !! join tmp ("_symlink_target_" +:+ pretty pid) = None →
  (∀ c, m !! join (join tmp ("_symlink_target_" +:+ pretty pid)) c = None) →
  check_symlink_capability tmp pid no_faults m = (Return true, m) ∧
  ∀ e, check_symlink_capability tmp pid
         (mkProbeFaults None None (Some e) None None None) m
       = (Return false, m).
Proof.
  intros Htmp Hlink Htarget Hbelow.
  set (link := join tmp ("_symlink_test_" +:+ pretty pid)) in *.
  set (target := join tmp ("_symlink_target_" +:+ pretty pid)) in *.
  assert (link ≠ target) as Hne by apply probe_names_differ.
  set (m1 := <[target := Dir]> m).
  pose proof (is_real_from_insert _ _ _ _ Dir Htarget Htmp) as Htmp1.
  fold m1 in Htmp1.
  assert (Path_mkdir_exist_ok None target m = inr m1) as Hmk.
  { unfold Path_mkdir_exist_ok.
    by rewrite locate_join lstat_join (stat_real _ _ Htmp) Htarget. }
  assert (m1 !! link = None) as Hlink1.
  { subst m1. by rewrite lookup_insert_ne. }
  assert (Path_exists m1 link = false) as Hex1.
  { apply Path_exists_false, stat_join_absent.
    by rewrite lstat_join (stat_real _ _ Htmp1). }
  assert (Path_rmdir None target m1 = inr m) as Hrm.
  { unfold Path_rmdir.
    rewrite locate_join lstat_join (stat_real _ _ Htmp1).
    subst m1. rewrite lookup_insert_eq scandir_empty.
    - by rewrite delete_insert_id.
    - intros c.
      rewrite lookup_insert_ne; [apply Hbelow|apply not_eq_sym, join_join_ne]. }
  assert (Path_exists m1 target = true) as Hext1.
  { apply Path_exists_true.
    rewrite (stat_real_join _ _ _ Htmp1) walk_cons. subst m1.
    by rewrite lookup_insert_eq. }
  unfold check_symlink_capability, no_faults.
  cbn [probe_mkdir probe_stale_unlink probe_symlink probe_unlink probe_rmdir
       probe_cleanup].
  fold link target. split.
  - rewrite Hmk Hex1. unfold os_symlink.
    rewrite locate_join lstat_join (stat_real _ _ Htmp1) Hlink1.
    pose proof (is_real_from_insert _ _ _ _ (Symlink target) Hlink1 Htmp1)
      as Htmp2.
    unfold os_unlink.
    rewrite locate_join lstat_join (stat_real _ _ Htmp2) lookup_insert_eq.
    rewrite delete_insert_id //. by rewrite Hrm.
  - intros e. rewrite Hmk Hex1. unfold os_symlink. by rewrite Hext1 Hrm.
Qed.

End More.

(** ** The further properties on the small installation *)


Lemma install_uninstall_round_trip_witness :
  is_real_dir (files Demo.w0) (join Demo.M "C") = true ∧
  is_real_dir (files Demo.w0) Demo.E = true ∧
  files Demo.w0 !! join Demo.E "C" = None ∧
  uninstall_mod None (install_mod Demo.M None Demo.w0 "C").2 "C" =
    (Return (success "Uninstalled C"), Demo.w0).
Proof.
  split; [vm_compute; reflexivity|]. split; [vm_compute; reflexivity|].
  split; [vm_compute; reflexivity|].
  apply (install_uninstall_round_trip Demo.M Demo.w0 "C" Demo.E);
    vm_compute; reflexivity.
Defined.

Lemma uninstall_mod_twice_witness :
  get_extensions_dir Demo.w1 = Return Demo.E ∧
  Path_is_symlink (files Demo.w1) (join Demo.E "A") = true ∧
  uninstall_mod None Demo.w1 "A" =
    (Return (success "Uninstalled A"),
     with_files Demo.w1 (delete (join Demo.E "A") (files Demo.w1))) ∧
  uninstall_mod None
    (with_files Demo.w1 (delete (join Demo.E "A") (files Demo.w1))) "A" =
    (Return not_installed,
     with_files Demo.w1 (delete (join Demo.E "A") (files Demo.w1))).
Proof.
  assert (get_extensions_dir Demo.w1 = Return Demo.E) as H1.
  { vm_compute. reflexivity. }
  assert (Path_is_symlink (files Demo.w1) (join Demo.E "A") = true) as H2.
  { vm_compute. reflexivity. }
  split; [exact H1|]. split; [exact H2|].
  destruct (uninstall_mod_twice Demo.w1 "A" Demo.E H1
              ltac:(vm_compute; reflexivity)
              ltac:(vm_compute; reflexivity) H2) as [Hfirst Hsecond].
  split; [exact Hfirst|apply Hsecond].
Defined.


Lemma orphan_link_stays_witness :
  let w :=
    with_files Demo.w0
      (<[join Demo.E "gone" := Symlink (join Demo.M "gone")]> Demo.tree) in
  Path_exists (files w) (join Demo.M "gone") = false ∧
  lstat (files w) (join Demo.E "gone") = Some (Symlink (join Demo.M "gone")) ∧
  uninstall_mod None w "gone" = (Return not_installed, w) ∧
  delete_mod Demo.M None None w "gone" = (Raise (NotFound "gone"), w) ∧
  install_mod Demo.M None w "gone" = (Raise (NotFound "gone"), w).
Proof.
  intros w.
  assert (Path_exists (files w) (join Demo.M "gone") = false) as H1.
  { vm_compute. reflexivity. }
  assert (lstat (files w) (join Demo.E "gone")
          = Some (Symlink (join Demo.M "gone"))) as H2.
  { vm_compute. reflexivity. }
  split; [exact H1|]. split; [exact H2|].
  destruct (orphan_link_stays Demo.M w "gone" Demo.E H1
              ltac:(vm_compute; reflexivity) H2) as (Hu & Hd & Hi & _).
  split; [apply Hu|]. split; [apply Hd|apply Hi].
Defined.

Lemma set_then_get_extensions_dir_witness :
  Str.strip (config_get [("path", "  /game ")] "path" "") = "/game" ∧
  Path_exists (files Demo.w0) (Path "/game") = true ∧
  load_config Demo.w0 = Return Demo.cfg ∧
  get_extensions_dir (set_extensions_dir None Demo.w0 [("path", "  /game ")]).2
    = Return ["game"].
Proof.
  split; [vm_compute; reflexivity|]. split; [vm_compute; reflexivity|].
  split; [vm_compute; reflexivity|].
  apply (set_then_get_extensions_dir Demo.w0 [("path", "  /game ")] Demo.cfg).
  - vm_compute. discriminate.
  - vm_compute. reflexivity.
  - vm_compute. reflexivity.
Defined.

Lemma list_mods_names_distinct_witness :
  list_mods Demo.M Demo.w1 =
    Return (mkListing [Demo.record_D; Demo.record_A] [Demo.record_F]
              "/game/extensions" "/app/mods") ∧
  NoDup (folder_name <$> [Demo.record_D; Demo.record_A]) ∧
  NoDup (folder_name <$> [Demo.record_F]).
Proof.
  assert (list_mods Demo.M Demo.w1 =
            Return (mkListing [Demo.record_D; Demo.record_A] [Demo.record_F]
                      "/game/extensions" "/app/mods")) as HL.
  { vm_compute. reflexivity. }
  split; [exact HL|].
  destruct (list_mods_names_distinct Demo.M Demo.w1 _ HL) as (H1 & H2 & _).
  split; [exact H1|exact H2].
Defined.



Lemma check_symlink_capability_no_trace_witness :
  is_real_dir Demo.tree ["game"] = true ∧
  check_symlink_capability ["game"] 4242 no_faults Demo.tree
    = (Return true, Demo.tree) ∧
  check_symlink_capability ["game"] 4242
    (mkProbeFaults None None (Some Demo.not_held) None None None) Demo.tree
    = (Return false, Demo.tree).
Proof.
  assert (is_real_dir Demo.tree ["game"] = true) as H1.
  { vm_compute. reflexivity. }
  split; [exact H1|].
  destruct (check_symlink_capability_no_trace ["game"] 4242 Demo.tree H1)
    as [Hyes Hno].
  - vm_compute. reflexivity.
  - vm_compute. reflexivity.
  - apply scandir_nil_absent. vm_compute. reflexivity.
  - split; [exact Hyes|apply Hno].
Defined.
